(** * feather-ctl: the build-promotion controller

    A shallow embedding of [src/tools/feather-ctl.py]: the artifact store
    ([list_builds]), the health prober ([get_health]), the promotion
    workflow ([promote_version]) and the HTTP handlers [do_GET],
    [do_POST] and [do_DELETE]; and of the signup handler of
    [src/birth/waitlist.py].

    Modelling conventions.

    Python [str] values are [string]s, each character a code point below
    256; string order is the lexicographic order on code points.

    [BUILDS_DIR] is a flat directory: a finite map from entry names to
    regular files, or [None] when the directory does not exist;
    [ACTIVE_FILE] is its entry ["active"].  An entry name has at most 255
    bytes (a character from 128 on takes two in UTF-8), no NUL and no
    path separator; [BUILDS_DIR / f"{version}.bin"] is the entry named
    [version ++ ".bin"].  A version with a path separator addresses a
    path that this flat store does not hold, and the model finds nothing
    there: what is proved of a missing build is stated for versions
    without separator.  The existence check is [Path.exists] as it is up
    to Python 3.12, which raises [OSError] on a name that is too long;
    [stem] is that of pathlib up to Python 3.13.  The other file-system
    calls on this in-memory model fail only where the path is missing.

    The data of a file is its text as [read_text] returns it.
    [write_text] stores its argument as it is; reading translates a
    carriage return into a line feed, which the model does not do, so
    what is proved of a pointer that was written and is then read is
    stated for versions without carriage return.

    The two unreliable collaborators, the supervisor and the health
    endpoint, are an oracle [env].  The handlers thread a [world] (file
    system, wall clock, number of health requests and restarts so far)
    through a state-and-exception monad [M]. *)

From Stdlib Require Import ZArith Ascii String List Bool Lia Sorted Permutation.
From Stdlib Require Import DecimalString.
From stdpp Require Import gmap strings list fin_maps sorting.

Local Open Scope string_scope.

(* ===================================================================== *)
(** ** Python string operations used by the controller *)
(* ===================================================================== *)

Module PyStr.

(** [s.endswith(suf)] *)
Fixpoint endswith (suf s : string) : bool :=
  if String.eqb s suf then true
  else match s with
       | EmptyString => false
       | String _ s' => endswith suf s'
       end.

(** [s.startswith(p)] *)
Fixpoint startswith (p s : string) : bool :=
  match p, s with
  | EmptyString, _ => true
  | String a p', String b s' => Ascii.eqb a b && startswith p' s'
  | String _ _, EmptyString => false
  end.

(** [s[n:]] *)
Fixpoint drop (n : nat) (s : string) : string :=
  match n, s with
  | O, _ => s
  | S n', String _ s' => drop n' s'
  | S _, EmptyString => EmptyString
  end.

(** [s[:n]] *)
Fixpoint take (n : nat) (s : string) : string :=
  match n, s with
  | S n', String a s' => String a (take n' s')
  | _, _ => EmptyString
  end.

(** [s.rfind(c)] for a one-character needle; [None] stands for -1. *)
Fixpoint rfind (c : ascii) (s : string) : option nat :=
  match s with
  | EmptyString => None
  | String a s' =>
      match rfind c s' with
      | Some i => Some (S i)
      | None => if Ascii.eqb a c then Some O else None
      end
  end.

(** Characters removed by [str.strip()] without argument: the code
    points below 256 for which [str.isspace()] holds. *)
Definition isspace (a : ascii) : bool :=
  let n := nat_of_ascii a in
  ((9 <=? n)%nat && (n <=? 13)%nat) || ((28 <=? n)%nat && (n <=? 32)%nat)
  || (n =? 133)%nat || (n =? 160)%nat.

Definition is_slash (a : ascii) : bool := Ascii.eqb a "/"%char.

Fixpoint lstrip (p : ascii -> bool) (s : string) : string :=
  match s with
  | EmptyString => EmptyString
  | String a s' => if p a then lstrip p s' else s
  end.

Fixpoint rstrip (p : ascii -> bool) (s : string) : string :=
  match s with
  | EmptyString => EmptyString
  | String a s' =>
      match rstrip p s' with
      | EmptyString => if p a then EmptyString else String a EmptyString
      | r => String a r
      end
  end.

(** [s.strip()] and [s.strip("/")] *)
Definition strip_by (p : ascii -> bool) (s : string) : string :=
  rstrip p (lstrip p s).

Definition strip : string -> string := strip_by isspace.

(** No character of [s] satisfies [p]. *)
Fixpoint free_of (p : ascii -> bool) (s : string) : bool :=
  match s with
  | EmptyString => true
  | String a s' => negb (p a) && free_of p s'
  end.

(** Python's truth value of a string. *)
Definition nonempty (s : string) : bool :=
  match s with EmptyString => false | _ => true end.

Definition is_nul (a : ascii) : bool := Ascii.eqb a "000"%char.

Definition is_cr (a : ascii) : bool := Ascii.eqb a "013"%char.

(** The length of [os.fsencode(s)]: UTF-8 takes one byte for a code point
    below 128 and two for the others below 256. *)
Fixpoint byte_length (s : string) : nat :=
  match s with
  | EmptyString => O
  | String a s' =>
      ((if (nat_of_ascii a <? 128)%nat then 1 else 2) + byte_length s')%nat
  end.

End PyStr.

(* ===================================================================== *)
(** ** pathlib *)
(* ===================================================================== *)

Module PyPath.

(** [PurePath.stem] of a file name: the name up to its last dot, unless
    that dot is the first or the last character. *)
Definition stem (name : string) : string :=
  match PyStr.rfind "."%char name with
  | Some i =>
      if (0 <? i)%nat && (i <? String.length name - 1)%nat
      then PyStr.take i name
      else name
  | None => name
  end.

(** The names [Path.glob("*.bin")] selects among the entries of a
    directory; pathlib does not treat a leading dot specially. *)
Definition glob_bin (name : string) : bool := PyStr.endswith ".bin" name.

(** [f"{version}.bin"] *)
Definition bin_name (version : string) : string := version ++ ".bin".

End PyPath.


(* ===================================================================== *)
(** ** Python values exchanged as JSON *)
(* ===================================================================== *)

(** What [json.loads] returns and [json.dumps] accepts.  [JNull] is
    Python's [None]; a dict is the list of its items in insertion order.
    Numbers are integers. *)
#[local] Unset Elimination Schemes.
Inductive json : Type :=
| JNull
| JBool (b : bool)
| JNum (n : Z)
| JStr (s : string)
| JArr (items : list json)
| JObj (items : list (string * json)).
#[local] Set Elimination Schemes.

(** Python's truth value: [if v:] *)
Definition truthy (v : json) : bool :=
  match v with
  | JNull => false
  | JBool b => b
  | JNum n => negb (n =? 0)%Z
  | JStr s => PyStr.nonempty s
  | JArr items => match items with [] => false | _ => true end
  | JObj items => match items with [] => false | _ => true end
  end.

(** [v is not None] *)
Definition is_not_None (v : json) : bool :=
  match v with JNull => false | _ => true end.

Fixpoint assoc (k : string) (items : list (string * json)) : option json :=
  match items with
  | [] => None
  | (k', v) :: rest => if String.eqb k k' then Some v else assoc k rest
  end.

(** The field [k] of a response body. *)
Definition field (k : string) (v : json) : option json :=
  match v with JObj items => assoc k items | _ => None end.

(* ===================================================================== *)
(** ** Exceptions and the handler monad *)
(* ===================================================================== *)

Inductive exn : Type :=
| URLError
| HTTPError (code : Z)
| SocketTimeout
| JSONDecodeError
| AttributeError
| FileNotFoundError
| TimeoutExpired
| OSError
| KeyboardInterrupt.

(** [isinstance(e, Exception)]: what [except Exception] catches. *)
Definition is_Exception (e : exn) : bool :=
  match e with KeyboardInterrupt => false | _ => true end.

Inductive result (A : Type) : Type :=
| Ok (a : A)
| Raise (e : exn).
Arguments Ok {A} a.
Arguments Raise {A} e.

(** *** The world the handlers act on *)

(** A file of the store: its text, [int(st_mtime)] and permission bits. *)
Record file : Type := File { f_data : string; f_mtime : Z; f_mode : Z }.

(** [BUILDS_DIR] (absent, or its entries by name) and [FEATHER_BIN]. *)
Record fs : Type := Fs {
  builds_dir : option (gmap string file);
  feather_bin : option file
}.

(** The mutable world of one handler call. *)
Record world : Type := World {
  w_fs : fs;
  w_now : Z;          (* wall clock, seconds *)
  w_probes : nat;     (* requests sent to HEALTH_URL so far *)
  w_restarts : nat    (* supervisorctl runs so far *)
}.

(** What one request to [HEALTH_URL] meets. *)
Inductive http_body : Type :=
| NotJson
| Json (v : json).

Inductive probe_outcome : Type :=
| ConnFailed                                   (* refused, reset, no route *)
| TimedOut                                     (* nothing within 3 seconds *)
| Responded (status : Z) (body : http_body).   (* final HTTP response *)

(** What one [sudo supervisorctl restart feather] does within its
    10 seconds. *)
Inductive run_outcome : Type :=
| Exited (returncode : Z)
| RunTimedOut.

(** The collaborators: the [i]-th health request and the [i]-th restart. *)
Record env : Type := Env {
  health_endpoint : nat -> probe_outcome;
  supervisor : nat -> run_outcome
}.

(** *** State and exceptions *)

Definition M (A : Type) : Type := world -> result A * world.

Definition ret {A : Type} (a : A) : M A := fun w => (Ok a, w).

Definition bind {A B : Type} (m : M A) (k : A -> M B) : M B :=
  fun w => match m w with
           | (Ok a, w') => k a w'
           | (Raise e, w') => (Raise e, w')
           end.

Definition raise {A : Type} (e : exn) : M A := fun w => (Raise e, w).

(** [try: m  except Exception: h] *)
Definition try_except {A : Type} (m : M A) (h : M A) : M A :=
  fun w => match m w with
           | (Raise e, w') => if is_Exception e then h w' else (Raise e, w')
           | r => r
           end.

Definition gets {A : Type} (f : world -> A) : M A := fun w => (Ok (f w), w).

Definition modify (f : world -> world) : M unit := fun w => (Ok tt, f w).

Declare Scope py_scope.
Delimit Scope py_scope with py.
Notation "'let*' x ':=' m 'in' k" := (bind m (fun x => k))
  (at level 10, x name, m at level 100, k at level 200) : py_scope.
Notation "'run' m 'then' k" := (bind m (fun _ => k))
  (at level 10, m at level 100, k at level 200) : py_scope.
Local Open Scope py_scope.

(* ===================================================================== *)
(** ** The file system calls *)
(* ===================================================================== *)

Definition ACTIVE_FILE : string := "active".
Definition HEALTH_BOUND : nat := 15.

Definition set_fs (f : fs) (w : world) : world :=
  World f (w_now w) (w_probes w) (w_restarts w).

Definition BUILDS_DIR : string := "/usr/local/bin/feather-builds".

(** The limits of Linux on one path component and on a whole path. *)
Definition NAME_MAX : nat := 255.
Definition PATH_MAX : nat := 4096.

(** A name that fits in one path component. *)
Definition fits (name : string) : bool :=
  (PyStr.byte_length name <=? NAME_MAX)%nat.

(** What a directory can hold as the name of an entry: at most
    [NAME_MAX] bytes, no NUL, no separator.  Other keys of the map are not
    entries. *)
Definition is_filename (name : string) : bool :=
  fits name && PyStr.free_of PyStr.is_nul name
  && PyStr.free_of PyStr.is_slash name.

Definition lookup_entry (name : string) (f : fs) : option file :=
  match builds_dir f with
  | Some d => if is_filename name then d !! name else None
  | None => None
  end.

(** [BUILDS_DIR / name] names an entry of the store. *)
Definition path_exists (name : string) (f : fs) : bool :=
  match lookup_entry name f with Some _ => true | None => false end.

(** [(BUILDS_DIR / name).exists()], as [Path.exists] is up to Python
    3.12: a name with a NUL is not encodable ([ValueError], answered
    [False]); a path of [PATH_MAX] bytes or more, and in an existing
    directory a component of more than [NAME_MAX] bytes, make [stat] fail
    with [ENAMETOOLONG], which [exists] raises again; every other failure
    of [stat] means [False]. *)
Definition path_probe (name : string) : M bool :=
  fun w =>
    if negb (PyStr.free_of PyStr.is_nul name) then (Ok false, w)
    else if (PATH_MAX <=? String.length BUILDS_DIR + 1
                          + PyStr.byte_length name)%nat
    then (Raise OSError, w)
    else match builds_dir (w_fs w) with
         | None => (Ok false, w)
         | Some _ =>
             if fits name then (Ok (path_exists name (w_fs w)), w)
             else (Raise OSError, w)
         end.

(** [ACTIVE_FILE.read_text().strip() if ACTIVE_FILE.exists() else default] *)
Definition read_active (default : string) (f : fs) : string :=
  match lookup_entry ACTIVE_FILE f with
  | Some a => PyStr.strip (f_data a)
  | None => default
  end.

(** [shutil.copy2(BUILDS_DIR / name, FEATHER_BIN)]: data and metadata. *)
Definition copy2 (name : string) : M unit :=
  fun w => match lookup_entry name (w_fs w) with
           | Some src =>
               (Ok tt, set_fs (Fs (builds_dir (w_fs w)) (Some src)) w)
           | None => (Raise FileNotFoundError, w)
           end.

(** [os.chmod(FEATHER_BIN, mode)] *)
Definition chmod_bin (mode : Z) : M unit :=
  fun w => match feather_bin (w_fs w) with
           | Some b =>
               (Ok tt, set_fs (Fs (builds_dir (w_fs w))
                                  (Some (File (f_data b) (f_mtime b) mode))) w)
           | None => (Raise FileNotFoundError, w)
           end.

(** [(BUILDS_DIR / name).write_text(data)]: creates or truncates. *)
Definition write_text (name data : string) : M unit :=
  fun w => match builds_dir (w_fs w) with
           | Some d =>
               let mode := match d !! name with
                           | Some old => f_mode old
                           | None => 420%Z
                           end in
               (Ok tt, set_fs (Fs (Some (<[name := File data (w_now w) mode]> d))
                                  (feather_bin (w_fs w))) w)
           | None => (Raise FileNotFoundError, w)
           end.

(** [(BUILDS_DIR / name).unlink()] *)
Definition unlink (name : string) : M unit :=
  fun w => match builds_dir (w_fs w) with
           | Some d =>
               match d !! name with
               | Some _ =>
                   (Ok tt, set_fs (Fs (Some (delete name d))
                                      (feather_bin (w_fs w))) w)
               | None => (Raise FileNotFoundError, w)
               end
           | None => (Raise FileNotFoundError, w)
           end.

(** [time.sleep(n)] *)
Definition sleep (n : Z) : M unit :=
  modify (fun w => World (w_fs w) (w_now w + n) (w_probes w) (w_restarts w)).

(* ===================================================================== *)
(** ** Artifact Store: [list_builds] *)
(* ===================================================================== *)

Record build : Type := Build {
  version : string;
  size : Z;
  timestamp : Z;
  active : bool
}.

(** [sorted(l, key=key, reverse=True)]: a stable sort, largest key first;
    entries with equal keys keep their order. *)
Fixpoint insert_desc {A : Type} (key : A -> string) (x : A) (l : list A)
  : list A :=
  match l with
  | [] => [x]
  | y :: l' =>
      if String.ltb (key x) (key y) then y :: insert_desc key x l'
      else x :: y :: l'
  end.

Definition sorted_desc {A : Type} (key : A -> string) (l : list A) : list A :=
  foldr (insert_desc key) [] l.

(** [BUILDS_DIR.glob("*.bin")], in directory order. *)
Definition glob (d : gmap string file) : list (string * file) :=
  filter (fun p => PyPath.glob_bin p.1 = true /\ is_filename p.1 = true)
         (map_to_list d).

Definition build_of (act : string) (p : string * file) : build :=
  Build (PyPath.stem p.1)
        (Z.of_nat (String.length (f_data p.2)))
        (f_mtime p.2)
        (String.eqb (PyPath.stem p.1) act).

Definition list_builds (f : fs) : list build :=
  match builds_dir f with
  | None => []
  | Some d =>
      let act := read_active "" f in
      map (build_of act) (sorted_desc (fun p => PyPath.stem p.1) (glob d))
  end.

Definition build_json (b : build) : json :=
  JObj [("version", JStr (version b)); ("size", JNum (size b));
        ("timestamp", JNum (timestamp b)); ("active", JBool (active b))].

(* ===================================================================== *)
(** ** Health Prober: [get_health] *)
(* ===================================================================== *)

(** [urllib.request.urlopen(HEALTH_URL, timeout=3)] followed by
    [r.read()]: only a 2xx response is returned to the caller. *)
Definition urlopen_read (o : probe_outcome) : result http_body :=
  match o with
  | ConnFailed => Raise URLError
  | TimedOut => Raise SocketTimeout
  | Responded status body =>
      if (200 <=? status)%Z && (status <? 300)%Z then Ok body
      else Raise (HTTPError status)
  end.

Definition json_loads (b : http_body) : result json :=
  match b with
  | NotJson => Raise JSONDecodeError
  | Json v => Ok v
  end.

(** The body of the [try] in [get_health]; each call is one request. *)
Definition fetch_health (E : env) : M json :=
  fun w =>
    let w' := World (w_fs w) (w_now w) (S (w_probes w)) (w_restarts w) in
    match urlopen_read (health_endpoint E (w_probes w)) with
    | Ok b => (json_loads b, w')
    | Raise e => (Raise e, w')
    end.

Definition get_health (E : env) : M json :=
  try_except (fetch_health E) (ret JNull).

(* ===================================================================== *)
(** ** Promotion Workflow: [promote_version] *)
(* ===================================================================== *)

(** [subprocess.run(["sudo", "supervisorctl", "restart", "feather"],
    capture_output=True, timeout=10)]: the return code is not looked at. *)
Definition restart_feather (E : env) : M unit :=
  fun w =>
    let w' := World (w_fs w) (w_now w) (w_probes w) (S (w_restarts w)) in
    match supervisor E (w_restarts w) with
    | Exited _ => (Ok tt, w')
    | RunTimedOut => (Raise TimeoutExpired, w')
    end.

(** The loop [for _ in range(n)] that polls the health endpoint. *)
Fixpoint poll_health (E : env) (n : nat) : M (bool * string) :=
  match n with
  | O => ret (true, "Restarted but health check not yet passing")
  | S n' =>
      run sleep 1 then
      let* h := get_health E in
      if truthy h then ret (true, "OK") else poll_health E n'
  end.

Definition promote_version (E : env) (version : string) : M (bool * string) :=
  let src := PyPath.bin_name version in
  let* found := path_probe src in
  if negb found then ret (false, "Build " ++ version ++ " not found")
  else
    run copy2 src then
    run chmod_bin 493 then
    run write_text ACTIVE_FILE version then
    run restart_feather E then
    poll_health E HEALTH_BOUND.

(* ===================================================================== *)
(** ** HTTP handlers *)
(* ===================================================================== *)

Definition response : Type := Z * json.

(** [health.get(k, default)]: only a dict has [get]. *)
Definition dict_get (v : json) (k : string) (default : json) : M json :=
  match v with
  | JObj items => ret (match assoc k items with Some x => x | None => default end)
  | _ => raise AttributeError
  end.

Definition do_GET (E : env) (path : string) : M response :=
  if String.eqb path "/admin/api/builds" then
    let* builds := gets (fun w => list_builds (w_fs w)) in
    ret (200%Z, JObj [("builds", JArr (map build_json builds))])
  else if String.eqb path "/admin/api/status" then
    let* health := get_health E in
    let* act := gets (fun w => read_active "unknown" (w_fs w)) in
    let* builds := gets (fun w => list_builds (w_fs w)) in
    let* uptime := (if truthy health
                    then dict_get health "uptime_secs" (JNum 0)
                    else ret (JNum 0)) in
    ret (200%Z, JObj [("active_version", JStr act);
                      ("healthy", JBool (is_not_None health));
                      ("uptime_secs", uptime);
                      ("build_count", JNum (Z.of_nat (length builds)))])
  else ret (404%Z, JObj [("error", JStr "not found")]).

Definition do_DELETE (path : string) : M response :=
  let prefix := "/admin/api/builds/" in
  if PyStr.startswith prefix path then
    let version := PyStr.strip_by PyStr.is_slash
                     (PyStr.drop (String.length prefix) path) in
    if negb (PyStr.nonempty version) then
      ret (400%Z, JObj [("error", JStr "version required")])
    else
      let* act := gets (fun w => read_active "" (w_fs w)) in
      if String.eqb version act then
        ret (409%Z, JObj [("error", JStr "Cannot delete the active build")])
      else
        let target := PyPath.bin_name version in
        let* found := path_probe target in
        if negb found then
          ret (404%Z, JObj [("error", JStr ("Build " ++ version ++ " not found"))])
        else
          run unlink target then
          ret (200%Z, JObj [("ok", JBool true); ("deleted", JStr version)])
  else ret (404%Z, JObj [("error", JStr "not found")]).

(* ===================================================================== *)
(** ** Vocabulary of the specification *)
(* ===================================================================== *)

(** A version identifier: non-empty, no path separator. *)
Definition valid_version (v : string) : Prop :=
  v <> "" /\ PyStr.free_of PyStr.is_slash v = true.

(** The request path of [DELETE /builds/{version}]. *)
Definition delete_path (v : string) : string := "/admin/api/builds/" ++ v.

(** Every artifact file carries a non-empty version: no entry of the
    store is named exactly [.bin]. *)
Definition store_ok (f : fs) : Prop := lookup_entry ".bin" f = None.

(** The four ways a probe fails: transport error, timeout, non-success
    status, body that is not JSON. *)
Definition probe_failed (o : probe_outcome) : Prop :=
  match o with
  | ConnFailed => True
  | TimedOut => True
  | Responded status body =>
      ~ (200 <= status < 300)%Z \/ body = NotJson
  end.

(** A reachable structured snapshot: a 2xx response whose body is a JSON
    object with an uptime field. *)
Definition health_snapshot (o : probe_outcome) : Prop :=
  exists status items up,
    o = Responded status (Json (JObj items)) /\ (200 <= status < 300)%Z
    /\ assoc "uptime_secs" items = Some up.

(** What the caller of [get_health] sees of a probe outcome. *)
Definition health_of (o : probe_outcome) : json :=
  match o with
  | Responded status (Json v) =>
      if (200 <=? status)%Z && (status <? 300)%Z then v else JNull
  | _ => JNull
  end.

(** Newest first: [a] may stand before [b] when the key of [b] is not
    above the key of [a]. *)
Definition desc {A : Type} (key : A -> string) (a b : A) : Prop :=
  String.le (key b) (key a).

(** The persisted Active Pointer: the text of [ACTIVE_FILE], if any. *)
Definition active_pointer (f : fs) : option string :=
  f_data <$> lookup_entry ACTIVE_FILE f.

(** The number of artifacts in the store. *)
Definition artifact_count (f : fs) : nat :=
  match builds_dir f with
  | Some d => length (glob d)
  | None => O
  end.

(** The world once one more health request has been answered. *)
Definition after_request (w : world) : world :=
  World (w_fs w) (w_now w) (S (w_probes w)) (w_restarts w).

(** The world once [promote_version] has staged the build [src] and
    written the pointer, before the restart. *)
Definition committed (v : string) (src : file) (d : gmap string file)
    (w : world) : world :=
  let mode := match d !! ACTIVE_FILE with
              | Some old => f_mode old
              | None => 420%Z
              end in
  set_fs (Fs (Some (<[ACTIVE_FILE := File v (w_now w) mode]> d))
             (Some (File (f_data src) (f_mtime src) 493))) w.

(** [n] probes later: [n] more requests sent, [n] more seconds slept. *)
Definition after_probes (n : nat) (w : world) : world :=
  World (w_fs w) (w_now w + Z.of_nat n) (w_probes w + n) (w_restarts w).

Definition degraded_message : string :=
  "Restarted but health check not yet passing".

(** Scenarios of the specification's section 8 and a few corner cases. *)
Module Scenario.

Definition bin (t : Z) : file := File "ELF" t 420.

Definition two_builds : gmap string file :=
  <["2024-01-01.bin" := bin 1704067200]>
    (<["2024-02-01.bin" := bin 1706745600]> ∅).

Definition fs_unset : fs := Fs (Some two_builds) None.

Definition w_unset : world := World fs_unset 1706800000 0 0.

Definition fs_active : fs :=
  Fs (Some (<["active" := File "2024-02-01" 1706800000 420]> two_builds))
     (Some (File "ELF" 1706745600 493)).

Definition w_active : world := World fs_active 1706800000 0 0.

(** The pointer names a build whose file is gone. *)
Definition fs_dangling : fs :=
  Fs (Some (<["active" := File "2023-12-01" 1706800000 420]> two_builds))
     None.

Definition w_dangling : world := World fs_dangling 1706800000 0 0.

(** The service is down. *)
Definition E_down : env := Env (fun _ => ConnFailed) (fun _ => Exited 0).

(** The service answers from the third request on. *)
Definition E_third : env :=
  Env (fun i => if (i <? 2)%nat then ConnFailed
                else Responded 200 (Json (JObj [("uptime_secs", JNum 1)])))
      (fun _ => Exited 0).

(** The service answers 200 with the body [v]. *)
Definition E_body (v : json) : env :=
  Env (fun _ => Responded 200 (Json v)) (fun _ => Exited 0).

(** The supervisor does not come back within 10 seconds. *)
Definition E_hang : env := Env (fun _ => ConnFailed) (fun _ => RunTimedOut).


(** The same store with a pointer that names another build. *)
Definition fs_hidden_other : fs :=
  Fs (Some (<[".bin" := bin 10]>
             (<[".bin.bin" := bin 20]>
               (<["active" := File "2024-02-01" 30 420]> ∅))))
     None.

Definition w_hidden_other : world := World fs_hidden_other 40 0 0.

(** [c * n] *)
Fixpoint times (c : ascii) (n : nat) : string :=
  match n with
  | O => EmptyString
  | S n' => String c (times c n')
  end.

(** A version of 252 letters: its file name has 256 bytes. *)
Definition long_version : string := times "a" 252.

(** A store whose build has a name that ends in a space. *)
Definition fs_padded : fs :=
  Fs (Some (<["rc1 .bin" := bin 1706745600]> two_builds)) None.

Definition w_padded : world := World fs_padded 1706800000 0 0.

End Scenario.

(* ===================================================================== *)
(** ** The POST handler and the request loop *)
(* ===================================================================== *)

(** What [_read_body] looks at: the Content-Length header as an integer
    (0 when the header is absent) and what [rfile.read(length)] holds. *)
Record request : Type := Request {
  content_length : Z;
  payload : http_body
}.

(** [json.loads(self.rfile.read(length)) if length else {}] *)
Definition read_body (req : request) : result json :=
  if (content_length req =? 0)%Z then Ok (JObj [])
  else json_loads (payload req).

(** What a handler can die of: an exception of the workflow, or the
    [TypeError] of [Path.write_text] on data that is not a [str]. *)
Inductive handler_exn : Type :=
| Workflow (e : exn)
| TypeError.

Inductive outcome (A : Type) : Type :=
| Sent (a : A)
| Died (e : handler_exn).
Arguments Sent {A} a.
Arguments Died {A} e.

Definition H (A : Type) : Type := world -> outcome A * world.

Definition lift {A : Type} (m : M A) : H A :=
  fun w => match m w with
           | (Ok a, w') => (Sent a, w')
           | (Raise e, w') => (Died (Workflow e), w')
           end.

(** [promote_version] on whatever value the request body carries.  On a
    [str] it is the workflow above.  On another value [fmt], Python's
    [str()], gives the text the f-strings insert, and [write_text]
    refuses the value before it opens the file. *)
Definition promote_value (E : env) (fmt : json -> string) (version : json)
  : H (bool * string) :=
  match version with
  | JStr s => lift (promote_version E s)
  | _ =>
      let src := PyPath.bin_name (fmt version) in
      fun w =>
        match path_probe src w with
        | (Raise e, w') => (Died (Workflow e), w')
        | (Ok found, w') =>
            if negb found
            then (Sent (false, "Build " ++ fmt version ++ " not found"), w')
            else match (run copy2 src then chmod_bin 493) w' with
                 | (Ok _, w'') => (Died TypeError, w'')
                 | (Raise e, w'') => (Died (Workflow e), w'')
                 end
        end
  end.

Definition do_POST (E : env) (fmt : json -> string) (path : string)
    (req : request) : H response :=
  if String.eqb path "/admin/api/promote" then
    fun w =>
      match read_body req with
      | Raise e => (Died (Workflow e), w)
      | Ok body =>
          match dict_get body "version" (JStr "") w with
          | (Raise e, w1) => (Died (Workflow e), w1)
          | (Ok version, w1) =>
              if negb (truthy version) then
                (Sent (400%Z, JObj [("error", JStr "version required")]), w1)
              else
                match promote_value E fmt version w1 with
                | (Sent (ok, msg), w2) =>
                    (Sent ((if ok then 200 else 404)%Z,
                           JObj [("ok", JBool ok); ("message", JStr msg)]),
                     w2)
                | (Died e, w2) => (Died e, w2)
                end
          end
      end
  else if String.eqb path "/admin/api/restart" then
    lift (run restart_feather E then
          run sleep 2 then
          let* health := get_health E in
          ret (200%Z, JObj [("ok", JBool true);
                            ("healthy", JBool (is_not_None health))]))
  else lift (ret (404%Z, JObj [("error", JStr "not found")])).

(** One request to the single-threaded [HTTPServer]: the handler runs to
    its end; when it dies the server logs the exception and goes on. *)
Inductive http_request : Type :=
| Get (path : string)
| Post (path : string) (req : request)
| Delete (path : string).

Definition serve (E : env) (fmt : json -> string) (r : http_request)
    (w : world) : world :=
  match r with
  | Get path => snd (do_GET E path w)
  | Post path req => snd (do_POST E fmt path req w)
  | Delete path => snd (do_DELETE path w)
  end.

(** [serve_forever] on the requests [rs], in their order. *)
Definition serve_all (E : env) (fmt : json -> string)
    (rs : list http_request) (w : world) : world :=
  fold_left (fun w r => serve E fmt r w) rs w.

(** The version a promote request asks for, when it is a [str]. *)
Definition posted_version (r : http_request) : option string :=
  match r with
  | Post path req =>
      if String.eqb path "/admin/api/promote" then
        match read_body req with
        | Ok (JObj items) =>
            match assoc "version" items with
            | Some (JStr v) => Some v
            | _ => None
            end
        | _ => None
        end
      else None
  | _ => None
  end.

(** The version a delete request names: what [do_DELETE] cuts out of the
    path. *)
Definition deleted_version (r : http_request) : option string :=
  match r with
  | Delete path =>
      let prefix := "/admin/api/builds/" in
      if PyStr.startswith prefix path then
        Some (PyStr.strip_by PyStr.is_slash
                (PyStr.drop (String.length prefix) path))
      else None
  | _ => None
  end.

(** A request whose version is a plain name: a promoted [str] has no
    surrounding whitespace, no path separator and no carriage return; a
    version to delete has no path separator. *)
Definition plain_request (r : http_request) : Prop :=
  (forall v, posted_version r = Some v ->
     PyStr.strip v = v
     /\ PyStr.free_of PyStr.is_slash v = true
     /\ PyStr.free_of PyStr.is_cr v = true)
  /\
  (forall v, deleted_version r = Some v ->
     PyStr.free_of PyStr.is_slash v = true).

(** The pointer, as its readers see it, names a build whose file exists. *)
Definition pointer_ok (f : fs) : Prop :=
  forall text, active_pointer f = Some text ->
               path_exists (PyPath.bin_name (PyStr.strip text)) f = true.

(** The body [{"version": v}] of a promote request. *)
Definition promote_request (v : json) : request :=
  Request 1 (Json (JObj [("version", v)])).

(** More concrete cases. *)
Module Cases.

(** [str()] of an integer, a boolean or a string; the cases below format
    no other value. *)
Definition str_scalar (v : json) : string :=
  match v with
  | JNum n => DecimalString.NilZero.string_of_int (Z.to_int n)
  | JBool true => "True"
  | JBool false => "False"
  | JStr s => s
  | _ => ""
  end.

(** A store whose build is named by a number. *)
Definition fs_numbered : fs :=
  Fs (Some (<["20240201.bin" := File "ELF2" 1706745600 420]>
             (<["active" := File "2024-01-01" 1706800000 420]>
               (<["2024-01-01.bin" := File "ELF1" 1704067200 420]> ∅))))
     (Some (File "ELF1" 1704067200 493)).

Definition w_numbered : world := World fs_numbered 1706800000 0 0.

(** The service answers 200 with a JSON object that has an uptime. *)
Definition E_up : env :=
  Env (fun _ => Responded 200 (Json (JObj [("uptime_secs", JNum 42)])))
      (fun _ => Exited 0).

End Cases.

(* ===================================================================== *)
(** ** The waitlist server, [src/birth/waitlist.py] *)
(* ===================================================================== *)

Module Waitlist.

(** [s.split(sep)] for a one-character separator. *)
Fixpoint split (sep : ascii) (s : string) : list string :=
  match s with
  | EmptyString => [EmptyString]
  | String c s' =>
      if Ascii.eqb c sep then EmptyString :: split sep s'
      else match split sep s' with
           | h :: t => String c h :: t
           | [] => [String c EmptyString]
           end
  end.

(** [s.partition(sep)]: the text before the first [sep], the separator
    found (empty when there is none), the text after it. *)
Fixpoint partition (sep : ascii) (s : string) : string * string * string :=
  match s with
  | EmptyString => (EmptyString, EmptyString, EmptyString)
  | String c s' =>
      if Ascii.eqb c sep then (EmptyString, String sep EmptyString, s')
      else let '(k, m, v) := partition sep s' in (String c k, m, v)
  end.

(** One round of the loop over the pairs of the form body. *)
Definition scan_pair (unquote_plus : string -> string) (email pair : string)
  : string :=
  let '(k, _, v) := partition "="%char pair in
  if String.eqb k "email" then PyStr.strip (unquote_plus v) else email.

(** The line [f"{stamp}\t{email}\n"]. *)
Definition entry (stamp email : string) : string :=
  stamp ++ String "009" (email ++ String "010" "").

(** [do_POST]: [body] is the decoded request body, [stamp] what
    [datetime.datetime.now().isoformat()] gives at the write,
    [unquote_plus] the function of [urllib.parse], and the state is the
    text of [WAITLIST_FILE], [None] while the file does not exist. *)
Definition do_POST (unquote_plus : string -> string) (stamp body : string)
    (waitlist : option string) : response * option string :=
  let email := fold_left (scan_pair unquote_plus)
                         (split "&"%char body) "" in
  ((200%Z, JObj [("ok", JBool true)]),
   if PyStr.nonempty email
   then Some (match waitlist with Some text => text | None => "" end
              ++ entry stamp email)
   else waitlist).

End Waitlist.

(* ===================================================================== *)
(** * Properties *)
(* ===================================================================== *)

(** ** Strings *)

Section StringFacts.

Lemma app_cons (a : ascii) (s t : string) :
  String a s ++ t = String a (s ++ t).
Proof. reflexivity. Qed.

Lemma app_nil_l (t : string) : "" ++ t = t.
Proof. reflexivity. Qed.

Lemma app_length (s t : string) :
  String.length (s ++ t) = (String.length s + String.length t)%nat.
Proof.
  induction s as [|a s IH]; [reflexivity |].
  rewrite app_cons. simpl. now rewrite IH.
Qed.

Lemma endswith_refl (s : string) : PyStr.endswith s s = true.
Proof.
  destruct s as [|a s]; [reflexivity |].
  change (PyStr.endswith (String a s) (String a s))
    with (if String.eqb (String a s) (String a s) then true
          else PyStr.endswith (String a s) s).
  now rewrite String.eqb_refl.
Qed.

Lemma endswith_app (suf p : string) : PyStr.endswith suf (p ++ suf) = true.
Proof.
  induction p as [|a p IH].
  - rewrite app_nil_l. apply endswith_refl.
  - rewrite app_cons.
    change (PyStr.endswith suf (String a (p ++ suf)))
      with (if String.eqb (String a (p ++ suf)) suf then true
            else PyStr.endswith suf (p ++ suf)).
    rewrite IH. now destruct (String.eqb _ _).
Qed.

Lemma endswith_inv (suf s : string) :
  PyStr.endswith suf s = true -> exists p, s = p ++ suf.
Proof.
  induction s as [|a s IH].
  - change (PyStr.endswith suf "")
      with (if String.eqb "" suf then true else false).
    destruct (String.eqb "" suf) eqn:He; [| discriminate].
    apply String.eqb_eq in He. subst. now exists "".
  - change (PyStr.endswith suf (String a s))
      with (if String.eqb (String a s) suf then true
            else PyStr.endswith suf s).
    destruct (String.eqb (String a s) suf) eqn:He.
    + apply String.eqb_eq in He. subst. now exists "".
    + intros H. destruct (IH H) as [p ->]. now exists (String a p).
Qed.

Lemma startswith_app (p s : string) : PyStr.startswith p (p ++ s) = true.
Proof.
  induction p as [|a p IH]; [reflexivity |].
  rewrite app_cons. simpl. now rewrite Ascii.eqb_refl, IH.
Qed.

Lemma drop_app (p s : string) : PyStr.drop (String.length p) (p ++ s) = s.
Proof.
  induction p as [|a p IH]; [now destruct s |].
  rewrite app_cons. simpl. exact IH.
Qed.

Lemma take_app (s t : string) : PyStr.take (String.length s) (s ++ t) = s.
Proof.
  induction s as [|a s IH]; [now destruct t |].
  rewrite app_cons. simpl. now rewrite IH.
Qed.

Lemma lstrip_free (p : ascii -> bool) (s : string) :
  PyStr.free_of p s = true -> PyStr.lstrip p s = s.
Proof.
  destruct s as [|a s]; simpl; [reflexivity |].
  intros H. apply andb_prop in H as [H _].
  now destruct (p a).
Qed.

Lemma rstrip_free (p : ascii -> bool) (s : string) :
  PyStr.free_of p s = true -> PyStr.rstrip p s = s.
Proof.
  induction s as [|a s IH]; simpl; [reflexivity |].
  intros H. apply andb_prop in H as [Ha Hs].
  rewrite (IH Hs). destruct s; [| reflexivity].
  now destruct (p a).
Qed.

Lemma strip_by_free (p : ascii -> bool) (s : string) :
  PyStr.free_of p s = true -> PyStr.strip_by p s = s.
Proof.
  intros H. unfold PyStr.strip_by. rewrite (lstrip_free _ _ H).
  now apply rstrip_free.
Qed.

Lemma rfind_dot_bin (s : string) :
  PyStr.rfind "."%char (s ++ ".bin") = Some (String.length s).
Proof.
  induction s as [|a s IH]; [reflexivity |].
  rewrite app_cons. simpl. now rewrite IH.
Qed.

Lemma stem_bin (s : string) : s <> "" -> PyPath.stem (s ++ ".bin") = s.
Proof.
  intros Hne. unfold PyPath.stem. rewrite rfind_dot_bin, app_length.
  destruct s as [|a s]; [congruence |].
  replace (0 <? String.length (String a s))%nat with true
    by (symmetry; apply Nat.ltb_lt; simpl; lia).
  replace (String.length (String a s) <?
           String.length (String a s) + String.length ".bin" - 1)%nat
    with true by (symmetry; apply Nat.ltb_lt; simpl; lia).
  apply take_app.
Qed.

(** A globbed name is [s.bin]; its stem is [s], or the whole name when
    [s] is empty. *)
Lemma glob_bin_inv (name : string) :
  PyPath.glob_bin name = true ->
  name = ".bin" \/
  (name = PyPath.bin_name (PyPath.stem name) /\ PyPath.stem name <> "").
Proof.
  intros H. apply endswith_inv in H as [s ->].
  destruct s as [|a s]; [now left | right].
  rewrite stem_bin by congruence. split; [reflexivity | congruence].
Qed.

Lemma glob_bin_name (v : string) : PyPath.glob_bin (PyPath.bin_name v) = true.
Proof. apply endswith_app. Qed.

Lemma stem_bin_name (v : string) :
  v <> "" -> PyPath.stem (PyPath.bin_name v) = v.
Proof. apply stem_bin. Qed.

(** A request for a valid version reaches the guard with that version. *)
Lemma delete_path_version (v : string) :
  valid_version v ->
  PyStr.startswith "/admin/api/builds/" (delete_path v) = true /\
  PyStr.strip_by PyStr.is_slash
    (PyStr.drop (String.length "/admin/api/builds/") (delete_path v)) = v /\
  PyStr.nonempty v = true.
Proof.
  intros [Hne Hfree]. unfold delete_path. split; [apply startswith_app |].
  rewrite drop_app, (strip_by_free _ _ Hfree).
  split; [reflexivity | now destruct v].
Qed.

End StringFacts.

Example stem_plain : PyPath.stem "2024-02-01.bin" = "2024-02-01".
Proof. reflexivity. Qed.

Example stem_two_suffixes : PyPath.stem "c.bin.bin" = "c.bin".
Proof. reflexivity. Qed.

(** A leading dot does not start a suffix. *)
Example stem_hidden : PyPath.stem ".bin" = ".bin".
Proof. reflexivity. Qed.

Example strip_line :
  PyStr.strip (String " " ("2024-02-01" ++ String "010" "")) = "2024-02-01".
Proof. reflexivity. Qed.

Example strip_slashes : PyStr.strip_by PyStr.is_slash "/a/b//" = "a/b".
Proof. reflexivity. Qed.

(** ** Sorting newest first *)

Section Sorting.

Context {A : Type} (key : A -> string).

Lemma ltb_le (x y : string) : String.ltb x y = true -> String.le x y.
Proof.
  unfold String.le, String.leb, String.ltb.
  destruct (String.compare x y); simpl; intros H;
    first [discriminate H | exact I].
Qed.

Lemma nltb_le (x y : string) : String.ltb x y = false -> String.le y x.
Proof.
  unfold String.le, String.leb, String.ltb.
  rewrite (String.compare_antisym y x).
  destruct (String.compare x y); simpl; intros H;
    first [discriminate H | exact I].
Qed.

Lemma insert_desc_perm (x : A) (l : list A) :
  Permutation (insert_desc key x l) (x :: l).
Proof.
  induction l as [|y l IH]; simpl; [reflexivity |].
  destruct (String.ltb (key x) (key y)); [| reflexivity].
  rewrite IH. apply perm_swap.
Qed.

Lemma sorted_desc_perm (l : list A) : Permutation (sorted_desc key l) l.
Proof.
  induction l as [|x l IH]; simpl; [reflexivity |].
  rewrite insert_desc_perm. now constructor.
Qed.

Lemma desc_trans (a b c : A) : desc key a b -> desc key b c -> desc key a c.
Proof. unfold desc. intros Hab Hbc. now transitivity (key b). Qed.

Lemma insert_desc_sorted (x : A) (l : list A) :
  StronglySorted (desc key) l -> StronglySorted (desc key) (insert_desc key x l).
Proof.
  induction l as [|y l IH]; simpl; intros Hs.
  - repeat constructor.
  - apply StronglySorted_inv in Hs as [Hl Hy].
    destruct (String.ltb (key x) (key y)) eqn:Hlt.
    + constructor; [now apply IH |].
      apply (Permutation_Forall (Permutation_sym (insert_desc_perm x l))).
      constructor; [| exact Hy]. now apply ltb_le.
    + assert (Hxy : desc key x y) by now apply nltb_le.
      constructor; [now constructor |].
      constructor; [exact Hxy |].
      eapply Forall_impl; [exact Hy |].
      intros b Hb. now apply (desc_trans x y b).
Qed.

Lemma sorted_desc_sorted (l : list A) :
  StronglySorted (desc key) (sorted_desc key l).
Proof.
  induction l as [|x l IH]; simpl; [constructor |].
  now apply insert_desc_sorted.
Qed.

End Sorting.



(** ** The Artifact Store *)

Section ArtifactStore.

Lemma lookup_entry_dir (f : fs) (d : gmap string file) (name : string) :
  builds_dir f = Some d -> is_filename name = true ->
  lookup_entry name f = d !! name.
Proof. intros Hd Hn. unfold lookup_entry. now rewrite Hd, Hn. Qed.

Lemma lookup_entry_inv (name : string) (f : fs) (x : file) :
  lookup_entry name f = Some x ->
  exists d, builds_dir f = Some d /\ is_filename name = true
            /\ d !! name = Some x.
Proof.
  unfold lookup_entry. destruct (builds_dir f) as [d|]; [| discriminate].
  destruct (is_filename name); [| discriminate].
  intros Hx. now exists d.
Qed.

Lemma is_filename_active : is_filename ACTIVE_FILE = true.
Proof. vm_compute. reflexivity. Qed.

Lemma is_filename_hidden : is_filename ".bin" = true.
Proof. vm_compute. reflexivity. Qed.

Lemma store_ok_dir (f : fs) (d : gmap string file) :
  builds_dir f = Some d -> store_ok f <-> d !! ".bin" = None.
Proof.
  intros Hd. unfold store_ok.
  now rewrite (lookup_entry_dir f d ".bin" Hd is_filename_hidden).
Qed.

Lemma glob_spec (d : gmap string file) (name : string) (x : file) :
  (name, x) ∈ glob d <->
  d !! name = Some x /\ PyPath.glob_bin name = true
  /\ is_filename name = true.
Proof.
  unfold glob. rewrite list_elem_of_filter, elem_of_map_to_list. simpl.
  tauto.
Qed.

Lemma glob_NoDup (d : gmap string file) : NoDup (glob d).
Proof. apply NoDup_filter, NoDup_map_to_list. Qed.

(** On a store without a file named [.bin], a globbed name is
    [bin_name] of its stem. *)
Lemma glob_name_stem (d : gmap string file) (name : string) (x : file) :
  d !! ".bin" = None -> (name, x) ∈ glob d ->
  name = PyPath.bin_name (PyPath.stem name) /\ PyPath.stem name <> "".
Proof.
  intros Hok (Hd & Hg & _)%glob_spec.
  destruct (glob_bin_inv name Hg) as [-> | H]; [congruence | exact H].
Qed.

Lemma glob_stems_NoDup (d : gmap string file) :
  d !! ".bin" = None -> NoDup (map (fun p => PyPath.stem p.1) (glob d)).
Proof.
  intros Hok.
  change (NoDup ((fun p : string * file => PyPath.stem p.1) <$> glob d)).
  apply NoDup_fmap_2_strong; [| apply glob_NoDup].
  intros [n1 x1] [n2 x2] H1 H2 Hst. simpl in Hst.
  destruct (glob_name_stem d n1 x1 Hok H1) as [E1 _].
  destruct (glob_name_stem d n2 x2 Hok H2) as [E2 _].
  assert (n1 = n2) as -> by congruence.
  apply glob_spec in H1 as [H1 _]. apply glob_spec in H2 as [H2 _].
  congruence.
Qed.

Lemma list_builds_versions (f : fs) (d : gmap string file) :
  builds_dir f = Some d ->
  Permutation (map version (list_builds f))
              (map (fun p => PyPath.stem p.1) (glob d)).
Proof.
  intros Hd. unfold list_builds. rewrite Hd, map_map. simpl.
  apply Permutation_map, sorted_desc_perm.
Qed.

Lemma list_builds_length (f : fs) (d : gmap string file) :
  builds_dir f = Some d -> length (list_builds f) = length (glob d).
Proof.
  intros Hd. unfold list_builds. rewrite Hd, length_map.
  apply Permutation_length, sorted_desc_perm.
Qed.

Lemma list_builds_NoDup (f : fs) :
  store_ok f -> NoDup (map version (list_builds f)).
Proof.
  destruct (builds_dir f) as [d|] eqn:Hd; intros Hok.
  - apply (store_ok_dir f d Hd) in Hok.
    rewrite (list_builds_versions f d Hd). now apply glob_stems_NoDup.
  - unfold list_builds. rewrite Hd. constructor.
Qed.

(** The listed versions are exactly the versions whose file exists. *)
Lemma list_builds_version_exists (f : fs) (v : string) :
  store_ok f ->
  In v (map version (list_builds f)) <->
  path_exists (PyPath.bin_name v) f = true.
Proof.
  destruct (builds_dir f) as [d|] eqn:Hd; intros Hok.
  - apply (store_ok_dir f d Hd) in Hok.
    rewrite <- list_elem_of_In, (list_builds_versions f d Hd).
    rewrite list_elem_of_In, in_map_iff. unfold path_exists. split.
    + intros ([name x] & <- & Hin). apply list_elem_of_In in Hin.
      destruct (glob_name_stem d name x Hok Hin) as [E _].
      simpl. rewrite <- E.
      apply glob_spec in Hin as (Hx & _ & Hf).
      now rewrite (lookup_entry_dir f d name Hd Hf), Hx.
    + destruct (lookup_entry (PyPath.bin_name v) f) as [x|] eqn:Hx;
        [| discriminate].
      intros _. apply lookup_entry_inv in Hx as (d' & Hd' & Hf & Hx).
      assert (d' = d) as -> by congruence.
      exists (PyPath.bin_name v, x). simpl.
      assert (Hv : v <> "") by (intros ->; unfold PyPath.bin_name in Hx;
                                rewrite app_nil_l in Hx; congruence).
      split; [now apply stem_bin_name |].
      apply list_elem_of_In, glob_spec. split; [exact Hx |].
      split; [apply glob_bin_name | exact Hf].
  - unfold list_builds, path_exists, lookup_entry. rewrite Hd. simpl.
    split; [tauto | discriminate].
Qed.

Lemma list_builds_active (f : fs) (b : build) :
  In b (list_builds f) ->
  active b = String.eqb (version b) (read_active "" f).
Proof.
  unfold list_builds. destruct (builds_dir f) as [d|]; [| contradiction].
  intros (p & <- & _)%in_map_iff. reflexivity.
Qed.


Lemma read_active_pointer (default : string) (f : fs) :
  read_active default f
  = match active_pointer f with
    | Some text => PyStr.strip text
    | None => default
    end.
Proof.
  unfold read_active, active_pointer.
  now destruct (lookup_entry ACTIVE_FILE f).
Qed.

End ArtifactStore.

(** ** The Health Prober *)

Section Health.

Variable E : env.

Lemma get_health_eq (w : world) :
  get_health E w =
  (Ok (health_of (health_endpoint E (w_probes w))), after_request w).
Proof.
  unfold get_health, try_except, fetch_health, after_request, health_of.
  destruct (health_endpoint E (w_probes w)) as [| |status [|v]]; simpl;
    try reflexivity;
    destruct ((200 <=? status)%Z && (status <? 300)%Z); reflexivity.
Qed.

Lemma success_status (status : Z) :
  (200 <= status < 300)%Z <->
  (200 <=? status)%Z && (status <? 300)%Z = true.
Proof. rewrite andb_true_iff, Z.leb_le, Z.ltb_lt. tauto. Qed.

Lemma probe_failed_None (o : probe_outcome) :
  probe_failed o -> health_of o = JNull.
Proof.
  destruct o as [| |status [|v]]; simpl; try reflexivity.
  intros [H | H]; [| discriminate].
  destruct ((200 <=? status)%Z && (status <? 300)%Z) eqn:Hs; [| reflexivity].
  now apply success_status in Hs.
Qed.

Lemma health_of_success (status : Z) (v : json) :
  (200 <= status < 300)%Z -> health_of (Responded status (Json v)) = v.
Proof. intros H%success_status. simpl. now rewrite H. Qed.

Lemma health_snapshot_truthy (o : probe_outcome) :
  health_snapshot o -> truthy (health_of o) = true.
Proof.
  intros (status & items & up & -> & Hs & Hup).
  rewrite health_of_success by exact Hs.
  destruct items; [discriminate | reflexivity].
Qed.

(** One round of the poll loop. *)
Lemma poll_health_step (n : nat) (w : world) :
  poll_health E (S n) w =
  let w1 := after_probes 1 w in
  if truthy (health_of (health_endpoint E (w_probes w)))
  then (Ok (true, "OK"), w1)
  else poll_health E n w1.
Proof.
  cbn [poll_health]. unfold bind at 1. unfold sleep, modify.
  unfold bind at 1. rewrite get_health_eq. simpl w_probes.
  replace (after_request _) with (after_probes 1 w).
  - cbv zeta. now destruct (truthy _).
  - unfold after_request, after_probes. simpl. f_equal. lia.
Qed.

Lemma after_probes_S (n : nat) (w : world) :
  after_probes n (after_probes 1 w) = after_probes (S n) w.
Proof. unfold after_probes. simpl. f_equal; lia. Qed.

Lemma poll_health_exhausted (n : nat) (w : world) :
  (forall i, (i < n)%nat ->
     truthy (health_of (health_endpoint E (w_probes w + i))) = false) ->
  poll_health E n w = (Ok (true, degraded_message), after_probes n w).
Proof.
  revert w. induction n as [|n IH]; intros w Hall.
  - simpl. unfold ret, after_probes. destruct w; simpl. do 2 f_equal; lia.
  - rewrite poll_health_step. cbv zeta.
    specialize (Hall O ltac:(lia)) as H0. rewrite Nat.add_0_r in H0.
    rewrite H0, IH, after_probes_S; [reflexivity |].
    intros i Hi. simpl w_probes.
    replace (w_probes w + 1 + i)%nat with (w_probes w + S i)%nat by lia.
    apply Hall. lia.
Qed.

Lemma poll_health_first (k n : nat) (w : world) :
  (k < n)%nat ->
  (forall i, (i < k)%nat ->
     truthy (health_of (health_endpoint E (w_probes w + i))) = false) ->
  truthy (health_of (health_endpoint E (w_probes w + k))) = true ->
  poll_health E n w = (Ok (true, "OK"), after_probes (S k) w).
Proof.
  revert n w. induction k as [|k IH]; intros [|n] w Hk Hall Hat; try lia.
  - rewrite poll_health_step. cbv zeta. rewrite Nat.add_0_r in Hat.
    now rewrite Hat.
  - rewrite poll_health_step. cbv zeta.
    specialize (Hall O ltac:(lia)) as H0. rewrite Nat.add_0_r in H0.
    rewrite H0, (IH n), after_probes_S; [reflexivity | lia | |].
    + intros i Hi. simpl w_probes.
      replace (w_probes w + 1 + i)%nat with (w_probes w + S i)%nat by lia.
      apply Hall. lia.
    + simpl w_probes.
      replace (w_probes w + 1 + k)%nat with (w_probes w + S k)%nat by lia.
      exact Hat.
Qed.

(** The loop always ends, always with [True], and never touches a file. *)
Lemma poll_health_total (n : nat) (w : world) :
  exists msg w', poll_health E n w = (Ok (true, msg), w') /\
                 w_fs w' = w_fs w /\ w_restarts w' = w_restarts w.
Proof.
  revert w. induction n as [|n IH]; intros w.
  - exists degraded_message, w. now split.
  - rewrite poll_health_step. cbv zeta. destruct (truthy _).
    + exists "OK", (after_probes 1 w). now split.
    + destruct (IH (after_probes 1 w)) as (msg & w' & -> & Hfs & Hr).
      exists msg, w'. now split.
Qed.

End Health.

(** ** The Promotion Workflow *)

Section Promotion.

Variable E : env.

Lemma path_exists_inv (name : string) (f : fs) :
  path_exists name f = true ->
  exists d src, builds_dir f = Some d /\ d !! name = Some src.
Proof.
  unfold path_exists.
  destruct (lookup_entry name f) as [src|] eqn:Hs; [| discriminate].
  intros _. apply lookup_entry_inv in Hs as (d & Hd & _ & Hs).
  now exists d, src.
Qed.

Lemma path_exists_filename (name : string) (f : fs) :
  path_exists name f = true -> is_filename name = true.
Proof.
  unfold path_exists.
  destruct (lookup_entry name f) as [src|] eqn:Hs; [| discriminate].
  intros _. now apply lookup_entry_inv in Hs as (d & _ & Hf & _).
Qed.

Lemma path_exists_dir (f : fs) (d : gmap string file) (name : string)
    (x : file) :
  builds_dir f = Some d -> is_filename name = true -> d !! name = Some x ->
  path_exists name f = true.
Proof.
  intros Hd Hf Hx. unfold path_exists.
  now rewrite (lookup_entry_dir f d name Hd Hf), Hx.
Qed.

Lemma is_filename_fits (name : string) :
  is_filename name = true -> fits name = true.
Proof.
  unfold is_filename. intros H. apply andb_prop in H as [H _].
  now apply andb_prop in H as [H _].
Qed.

Lemma is_filename_no_slash (name : string) :
  is_filename name = true -> PyStr.free_of PyStr.is_slash name = true.
Proof. unfold is_filename. intros H. now apply andb_prop in H as [_ H]. Qed.

Lemma fits_path (name : string) :
  fits name = true ->
  (PATH_MAX <=? String.length BUILDS_DIR + 1 + PyStr.byte_length name)%nat
  = false.
Proof.
  unfold fits, NAME_MAX, PATH_MAX. intros Hf.
  apply Nat.leb_le in Hf. apply Nat.leb_gt.
  change (String.length BUILDS_DIR) with 29%nat. lia.
Qed.

(** The existence check on a name that fits answers, and answers what
    the store holds. *)
Lemma path_probe_fits (name : string) (w : world) :
  fits name = true ->
  path_probe name w = (Ok (path_exists name (w_fs w)), w).
Proof.
  intros Hf. unfold path_probe.
  destruct (PyStr.free_of PyStr.is_nul name) eqn:Hn; cbn [negb].
  - rewrite (fits_path name Hf), Hf.
    destruct (builds_dir (w_fs w)) as [d|] eqn:Hd; [reflexivity |].
    unfold path_exists, lookup_entry. now rewrite Hd.
  - unfold path_exists, lookup_entry, is_filename. rewrite Hn, Hf.
    now destruct (builds_dir (w_fs w)).
Qed.

Lemma path_probe_exists (name : string) (w : world) :
  path_exists name (w_fs w) = true -> path_probe name w = (Ok true, w).
Proof.
  intros Hex. pose proof (path_exists_filename _ _ Hex) as Hf.
  unfold is_filename in Hf. apply andb_prop in Hf as [Hf _].
  apply andb_prop in Hf as [Hf _].
  now rewrite (path_probe_fits name w Hf), Hex.
Qed.

(** The check never changes the world; it answers what the store holds
    or raises [OSError], and then no entry has that name. *)
Lemma path_probe_cases (name : string) (w : world) :
  path_probe name w = (Ok (path_exists name (w_fs w)), w)
  \/ (path_probe name w = (Raise OSError, w)
      /\ fits name = false /\ path_exists name (w_fs w) = false).
Proof.
  destruct (fits name) eqn:Hf; [left; now apply path_probe_fits |].
  assert (Hno : path_exists name (w_fs w) = false).
  { unfold path_exists, lookup_entry, is_filename. rewrite Hf.
    now destruct (builds_dir (w_fs w)). }
  unfold path_probe. rewrite Hno, Hf.
  destruct (negb (PyStr.free_of PyStr.is_nul name)); [now left |].
  destruct (PATH_MAX <=? _)%nat; [now right |].
  destruct (builds_dir (w_fs w)); [now right | now left].
Qed.

(** A name of more than 255 bytes in an existing directory: the check
    raises. *)
Lemma path_probe_long (name : string) (w : world) :
  fits name = false ->
  PyStr.free_of PyStr.is_nul name = true ->
  builds_dir (w_fs w) <> None ->
  path_probe name w = (Raise OSError, w).
Proof.
  intros Hf Hn Hd. unfold path_probe. rewrite Hn, Hf. cbn [negb].
  destruct (PATH_MAX <=? _)%nat; [reflexivity |].
  now destruct (builds_dir (w_fs w)).
Qed.

Lemma promote_version_missing (v : string) (w : world) :
  fits (PyPath.bin_name v) = true ->
  path_exists (PyPath.bin_name v) (w_fs w) = false ->
  promote_version E v w = (Ok (false, "Build " ++ v ++ " not found"), w).
Proof.
  intros Hf H. unfold promote_version, bind.
  now rewrite (path_probe_fits _ w Hf), H.
Qed.

Lemma promote_version_too_long (v : string) (w : world) :
  path_probe (PyPath.bin_name v) w = (Raise OSError, w) ->
  promote_version E v w = (Raise OSError, w).
Proof. intros H. unfold promote_version, bind. now rewrite H. Qed.

(** Without the build file the workflow ends at the check and leaves the
    world as it was, whether it returns or raises. *)
Lemma promote_version_absent (v : string) (w : world) :
  path_exists (PyPath.bin_name v) (w_fs w) = false ->
  snd (promote_version E v w) = w.
Proof.
  intros Hmiss.
  destruct (path_probe_cases (PyPath.bin_name v) w) as [Hp | (Hp & _ & _)].
  - unfold promote_version, bind. now rewrite Hp, Hmiss.
  - now rewrite (promote_version_too_long v w Hp).
Qed.

(** Steps 1 to 3 on an existing build: stage, make executable, write the
    pointer; what is left is the restart and the poll. *)
Lemma promote_version_found (v : string) (w : world)
    (d : gmap string file) (src : file) :
  builds_dir (w_fs w) = Some d ->
  is_filename (PyPath.bin_name v) = true ->
  d !! PyPath.bin_name v = Some src ->
  promote_version E v w =
  bind (restart_feather E) (fun _ => poll_health E HEALTH_BOUND)
       (committed v src d w).
Proof.
  intros Hd Hf Hs. unfold promote_version.
  generalize (poll_health E HEALTH_BOUND) as k. intros k.
  unfold bind at 1.
  rewrite (path_probe_exists _ w (path_exists_dir _ d _ src Hd Hf Hs)).
  cbn [negb].
  unfold bind at 1. unfold copy2.
  rewrite (lookup_entry_dir _ d _ Hd Hf), Hs.
  unfold bind at 1. unfold chmod_bin. cbn [set_fs w_fs feather_bin builds_dir].
  unfold bind at 1. unfold write_text.
  cbn [set_fs w_fs feather_bin builds_dir w_now w_probes w_restarts f_data f_mtime].
  rewrite Hd. reflexivity.
Qed.

Lemma committed_pointer (v : string) (src : file) (d : gmap string file)
    (w : world) :
  active_pointer (w_fs (committed v src d w)) = Some v.
Proof.
  unfold active_pointer, committed, lookup_entry.
  cbn [set_fs w_fs builds_dir]. rewrite is_filename_active.
  now rewrite lookup_insert_eq.
Qed.

(** On an existing build the workflow either returns [True] or dies of
    the supervisor's timeout; the pointer names the build either way. *)
Lemma promote_version_found_outcome (v : string) (w : world) :
  path_exists (PyPath.bin_name v) (w_fs w) = true ->
  exists w', active_pointer (w_fs w') = Some v /\
    ((exists msg, promote_version E v w = (Ok (true, msg), w')) \/
     promote_version E v w = (Raise TimeoutExpired, w')).
Proof.
  intros Hex. pose proof (path_exists_filename _ _ Hex) as Hf.
  destruct (path_exists_inv _ _ Hex) as (d & src & Hd & Hs).
  rewrite (promote_version_found v w d src Hd Hf Hs).
  unfold bind, restart_feather.
  destruct (supervisor E (w_restarts (committed v src d w))) as [rc|].
  - match goal with |- context [poll_health E HEALTH_BOUND ?w0] =>
      destruct (poll_health_total E HEALTH_BOUND w0) as (msg & w' & -> & Hfs & _)
    end.
    exists w'. split; [| left; now exists msg].
    rewrite Hfs. apply committed_pointer.
  - eexists. split; [| right; reflexivity]. apply committed_pointer.
Qed.

(** With the supervisor back in time the poll starts from the committed
    world, one restart later. *)
Lemma promote_reaches_poll (v : string) (w : world) (rc : Z) :
  path_exists (PyPath.bin_name v) (w_fs w) = true ->
  supervisor E (w_restarts w) = Exited rc ->
  exists w0, promote_version E v w = poll_health E HEALTH_BOUND w0 /\
             w_probes w0 = w_probes w /\ w_now w0 = w_now w.
Proof.
  intros Hex Hrc. pose proof (path_exists_filename _ _ Hex) as Hf.
  destruct (path_exists_inv _ _ Hex) as (d & src & Hd & Hs).
  rewrite (promote_version_found v w d src Hd Hf Hs).
  unfold bind, restart_feather.
  replace (w_restarts (committed v src d w)) with (w_restarts w) by reflexivity.
  rewrite Hrc. eexists. split; [reflexivity |]. now split.
Qed.

End Promotion.

(** C2 (as amended).  For an existing build, once the restart command has
    returned within its 10 seconds:
    when each of the 15 once-per-second probes fails, [promote_version]
    still returns [True] with the degraded message; when probe [k] is the
    first to bring a health snapshot, it returns [True] with ["OK"] after
    [k + 1] probes and as many seconds. *)
Theorem promote_version_poll (E : env) (v : string) (w : world) :
  path_exists (PyPath.bin_name v) (w_fs w) = true ->
  (exists rc, supervisor E (w_restarts w) = Exited rc) ->
  ((forall i, (i < 15)%nat ->
      probe_failed (health_endpoint E (w_probes w + i))) ->
   exists w', promote_version E v w = (Ok (true, degraded_message), w') /\
              w_probes w' = (w_probes w + 15)%nat /\
              w_now w' = (w_now w + 15)%Z)
  /\
  (forall k, (k < 15)%nat ->
     (forall i, (i < k)%nat ->
        probe_failed (health_endpoint E (w_probes w + i))) ->
     health_snapshot (health_endpoint E (w_probes w + k)) ->
     exists w', promote_version E v w = (Ok (true, "OK"), w') /\
                w_probes w' = (w_probes w + S k)%nat /\
                w_now w' = (w_now w + Z.of_nat (S k))%Z).
Proof.
  intros Hex [rc Hrc].
  destruct (promote_reaches_poll E v w rc Hex Hrc) as (w0 & -> & Hp & Hn).
  split.
  - intros Hall. eexists. split.
    + apply poll_health_exhausted. intros i Hi. rewrite Hp.
      rewrite probe_failed_None; [reflexivity | now apply Hall].
    + unfold after_probes, HEALTH_BOUND. cbn [w_probes w_now].
      rewrite Hp, Hn. split; [reflexivity | lia].
  - intros k Hk Hall Hsnap. eexists. split.
    + apply (poll_health_first E k); [exact Hk | |].
      * intros i Hi. rewrite Hp.
        rewrite probe_failed_None; [reflexivity | now apply Hall].
      * rewrite Hp. now apply health_snapshot_truthy.
    + unfold after_probes. cbn [w_probes w_now]. rewrite Hp, Hn.
      split; reflexivity.
Qed.

Lemma promote_version_poll_witness :
  (exists w', promote_version Scenario.E_down "2024-02-01" Scenario.w_unset
              = (Ok (true, degraded_message), w') /\
              w_probes w' = 15%nat /\ w_now w' = 1706800015%Z)
  /\
  (exists w', promote_version Scenario.E_third "2024-02-01" Scenario.w_unset
              = (Ok (true, "OK"), w') /\
              w_probes w' = 3%nat /\ w_now w' = 1706800003%Z).
Proof.
  split.
  - apply (promote_version_poll Scenario.E_down "2024-02-01" Scenario.w_unset).
    + vm_compute. reflexivity.
    + exists 0%Z. reflexivity.
    + intros i _. exact I.
  - apply (promote_version_poll Scenario.E_third "2024-02-01" Scenario.w_unset)
      with (k := 2%nat).
    + vm_compute. reflexivity.
    + exists 0%Z. reflexivity.
    + lia.
    + intros i Hi. simpl.
      destruct i as [|[|i]]; [exact I | exact I | lia].
    + exists 200%Z, [("uptime_secs", JNum 1)], (JNum 1).
      split; [reflexivity | split; [lia | reflexivity]].
Defined.

(** Where C2 as stated fails: the build exists and every probe
    fails, but the restart command does not come back within its 10
    seconds; [subprocess.run] raises [TimeoutExpired], which
    [promote_version] does not catch, and nothing is returned. *)
Lemma promote_restart_timeout_raises :
  path_exists (PyPath.bin_name "2024-02-01") (w_fs Scenario.w_unset) = true /\
  (forall i, probe_failed (health_endpoint Scenario.E_hang i)) /\
  (exists w', promote_version Scenario.E_hang "2024-02-01" Scenario.w_unset
              = (Raise TimeoutExpired, w')) /\
  ~ (exists msg w', promote_version Scenario.E_hang "2024-02-01" Scenario.w_unset
                    = (Ok (true, msg), w')).
Proof.
  split; [vm_compute; reflexivity |].
  split; [intros i; exact I |].
  split.
  - eexists. vm_compute. reflexivity.
  - intros (msg & w' & H). vm_compute in H. discriminate H.
Qed.

(** C3 (as amended).  For a version without path separator whose file
    name [v.bin]
    has at most 255 bytes, [promote_version] returns [False] exactly when
    the build file does not exist; it then returns at once, message
    "Build v not found", and the world (the Active Pointer with it) is as
    it was.  For every version, a returned [False] means that the build
    file does not exist and that the world is as it was.  With a longer
    file name the existence check raises [OSError], and the world is as
    it was. *)
Theorem promote_version_fails_iff_missing (E : env) (v : string) (w : world) :
  PyStr.free_of PyStr.is_slash v = true ->
  (fits (PyPath.bin_name v) = true ->
   ((exists msg w', promote_version E v w = (Ok (false, msg), w')) <->
    path_exists (PyPath.bin_name v) (w_fs w) = false)
   /\
   (path_exists (PyPath.bin_name v) (w_fs w) = false ->
    promote_version E v w = (Ok (false, "Build " ++ v ++ " not found"), w)))
  /\
  (forall msg w', promote_version E v w = (Ok (false, msg), w') ->
     path_exists (PyPath.bin_name v) (w_fs w) = false /\ w' = w)
  /\
  (fits (PyPath.bin_name v) = false ->
   PyStr.free_of PyStr.is_nul (PyPath.bin_name v) = true ->
   builds_dir (w_fs w) <> None ->
   promote_version E v w = (Raise OSError, w)).
Proof.
  intros _.
  assert (Hmissing : forall msg w',
            promote_version E v w = (Ok (false, msg), w') ->
            path_exists (PyPath.bin_name v) (w_fs w) = false).
  { intros msg w' Hret.
    destruct (path_exists (PyPath.bin_name v) (w_fs w)) eqn:Hex;
      [exfalso | reflexivity].
    destruct (promote_version_found_outcome E v w Hex)
      as (w1 & _ & [[m Hok] | Hraise]); congruence. }
  split; [| split].
  - intros Hf. split; [split |].
    + intros (msg & w' & Hret). exact (Hmissing msg w' Hret).
    + intros Hmiss. eexists _, w. now apply promote_version_missing.
    + now apply promote_version_missing.
  - intros msg w' Hret. pose proof (Hmissing msg w' Hret) as Hmiss.
    split; [exact Hmiss |].
    destruct (path_probe_cases (PyPath.bin_name v) w) as [Hp | (Hp & _ & _)].
    + revert Hret. unfold promote_version, bind. rewrite Hp, Hmiss.
      cbn [negb]. unfold ret. intros Hret. now injection Hret.
    + rewrite (promote_version_too_long E v w Hp) in Hret. discriminate Hret.
  - intros Hf Hn Hd. apply promote_version_too_long.
    now apply path_probe_long.
Qed.

Lemma promote_version_fails_iff_missing_witness :
  path_exists (PyPath.bin_name "2023-12-01") (w_fs Scenario.w_active) = false /\
  promote_version Scenario.E_down "2023-12-01" Scenario.w_active
  = (Ok (false, "Build 2023-12-01 not found"), Scenario.w_active) /\
  active_pointer (w_fs Scenario.w_active) = Some "2024-02-01".
Proof.
  split; [vm_compute; reflexivity |]. split.
  - apply (promote_version_fails_iff_missing
             Scenario.E_down "2023-12-01" Scenario.w_active).
    + vm_compute. reflexivity.
    + vm_compute. reflexivity.
    + vm_compute. reflexivity.
  - vm_compute. reflexivity.
Defined.

(** Where C3 as stated fails: a version of 252 letters is not in
    the store, and [promote_version] raises [OSError] from
    [Path.exists] instead of returning [False]. *)
Lemma promote_long_version_raises :
  PyStr.free_of PyStr.is_slash Scenario.long_version = true /\
  path_exists (PyPath.bin_name Scenario.long_version) (w_fs Scenario.w_active)
  = false /\
  promote_version Scenario.E_down Scenario.long_version Scenario.w_active
  = (Raise OSError, Scenario.w_active) /\
  ~ (exists msg w',
       promote_version Scenario.E_down Scenario.long_version Scenario.w_active
       = (Ok (false, msg), w')).
Proof.
  assert (H : promote_version Scenario.E_down Scenario.long_version
                Scenario.w_active = (Raise OSError, Scenario.w_active)).
  { vm_compute. reflexivity. }
  split; [vm_compute; reflexivity |].
  split; [vm_compute; reflexivity |].
  split; [exact H |].
  intros (msg & w' & Hret). rewrite H in Hret. discriminate Hret.
Qed.

(** C4 (as amended).  For an existing build, whatever the supervisor and
    the health endpoint do afterwards (also when the restart times out
    and the workflow dies of it), [promote_version] leaves [ACTIVE_FILE]
    holding the text [v].  Every reader strips what it reads: when [v] has no
    carriage return, the pointer reads back as [v] with surrounding
    whitespace stripped, hence as [v] itself exactly when [v] has none. *)
Theorem promote_version_commits_pointer (E : env) (v : string) (w : world) :
  path_exists (PyPath.bin_name v) (w_fs w) = true ->
  active_pointer (w_fs (snd (promote_version E v w))) = Some v
  /\ (PyStr.free_of PyStr.is_cr v = true ->
      (forall default,
         read_active default (w_fs (snd (promote_version E v w)))
         = PyStr.strip v)
      /\ ((forall default,
             read_active default (w_fs (snd (promote_version E v w))) = v)
          <-> PyStr.strip v = v)).
Proof.
  intros Hex.
  assert (Hptr : active_pointer (w_fs (snd (promote_version E v w))) = Some v).
  { destruct (promote_version_found_outcome E v w Hex)
      as (w1 & Hptr & [[m ->] | ->]); exact Hptr. }
  split; [exact Hptr |].
  intros _.
  assert (Hread : forall default,
            read_active default (w_fs (snd (promote_version E v w)))
            = PyStr.strip v).
  { intros default. now rewrite read_active_pointer, Hptr. }
  split; [exact Hread |]. split.
  - intros H. rewrite <- (Hread ""). apply H.
  - intros H default. now rewrite Hread.
Qed.

Lemma promote_version_commits_pointer_witness :
  active_pointer (w_fs (snd (promote_version Scenario.E_down "2024-02-01"
                                             Scenario.w_unset)))
  = Some "2024-02-01" /\
  read_active "" (w_fs (snd (promote_version Scenario.E_hang "2024-01-01"
                                             Scenario.w_active)))
  = "2024-01-01".
Proof.
  split.
  - apply (proj1 (promote_version_commits_pointer
                    Scenario.E_down "2024-02-01" Scenario.w_unset
                    ltac:(vm_compute; reflexivity))).
  - destruct (promote_version_commits_pointer
                Scenario.E_hang "2024-01-01" Scenario.w_active
                ltac:(vm_compute; reflexivity)) as [_ Hread].
    destruct (Hread ltac:(vm_compute; reflexivity)) as [_ Hback].
    apply Hback. vm_compute. reflexivity.
Defined.

(** Where C4 as stated fails: the build [rc1 .bin] is promoted
    under the version [rc1] followed by a space; the pointer file holds
    that text, and every reader gets [rc1], which is not the promoted
    version and names no build. *)
Lemma promote_padded_version_not_read_back :
  path_exists (PyPath.bin_name "rc1 ") (w_fs Scenario.w_padded) = true /\
  read_active "" (w_fs (snd (promote_version Scenario.E_down "rc1 "
                                             Scenario.w_padded))) = "rc1" /\
  read_active "" (w_fs (snd (promote_version Scenario.E_down "rc1 "
                                             Scenario.w_padded))) <> "rc1 " /\
  path_exists (PyPath.bin_name "rc1")
    (w_fs (snd (promote_version Scenario.E_down "rc1 " Scenario.w_padded)))
  = false.
Proof.
  split; [vm_compute; reflexivity |].
  split; [vm_compute; reflexivity |].
  split; [vm_compute; discriminate |].
  vm_compute. reflexivity.
Qed.

(** ** The Deletion Guard *)

Section Deletion.

(** The handler on the path of a valid version, check by check. *)
Lemma do_DELETE_guard (v : string) (w : world) :
  valid_version v ->
  do_DELETE (delete_path v) w =
  if String.eqb v (read_active "" (w_fs w)) then
    (Ok (409%Z, JObj [("error", JStr "Cannot delete the active build")]), w)
  else
    bind (path_probe (PyPath.bin_name v))
         (fun found =>
            if negb found then
              ret (404%Z, JObj [("error", JStr ("Build " ++ v ++ " not found"))])
            else
              bind (unlink (PyPath.bin_name v))
                   (fun _ => ret (200%Z, JObj [("ok", JBool true);
                                               ("deleted", JStr v)])))
         w.
Proof.
  intros Hv. destruct (delete_path_version v Hv) as (Hs & Hd & Hn).
  unfold do_DELETE. cbv zeta. rewrite Hs, Hd, Hn. cbn [negb].
  unfold bind at 1. unfold gets at 1.
  now destruct (String.eqb v (read_active "" (w_fs w))).
Qed.

(** The same when the file name fits: the existence check answers. *)
Lemma do_DELETE_checks (v : string) (w : world) :
  valid_version v ->
  fits (PyPath.bin_name v) = true ->
  do_DELETE (delete_path v) w =
  if String.eqb v (read_active "" (w_fs w)) then
    (Ok (409%Z, JObj [("error", JStr "Cannot delete the active build")]), w)
  else if path_exists (PyPath.bin_name v) (w_fs w) then
    bind (unlink (PyPath.bin_name v))
         (fun _ => ret (200%Z, JObj [("ok", JBool true); ("deleted", JStr v)]))
         w
  else
    (Ok (404%Z, JObj [("error", JStr ("Build " ++ v ++ " not found"))]), w).
Proof.
  intros Hv Hf. rewrite (do_DELETE_guard v w Hv).
  destruct (String.eqb v (read_active "" (w_fs w))); [reflexivity |].
  unfold bind at 1. rewrite (path_probe_fits _ w Hf).
  now destruct (path_exists (PyPath.bin_name v) (w_fs w)).
Qed.

(** With a longer file name the existence check raises, and nothing has
    been written. *)
Lemma do_DELETE_too_long (v : string) (w : world) :
  valid_version v ->
  v <> read_active "" (w_fs w) ->
  path_probe (PyPath.bin_name v) w = (Raise OSError, w) ->
  do_DELETE (delete_path v) w = (Raise OSError, w).
Proof.
  intros Hv Hne Hp. rewrite (do_DELETE_guard v w Hv).
  destruct (String.eqb v (read_active "" (w_fs w))) eqn:He;
    [apply String.eqb_eq in He; contradiction |].
  unfold bind. now rewrite Hp.
Qed.

Lemma unlink_existing (name : string) (w : world) (d : gmap string file)
    (x : file) :
  builds_dir (w_fs w) = Some d -> d !! name = Some x ->
  unlink name w
  = (Ok tt, set_fs (Fs (Some (delete name d)) (feather_bin (w_fs w))) w).
Proof. intros Hd Hx. unfold unlink. now rewrite Hd, Hx. Qed.

End Deletion.

(** C5.  A request to delete the version the Active Pointer names is
    refused with 409, and the world is left as it was: the artifact is not
    removed, nothing is written. *)
Theorem delete_active_refused (v : string) (w : world) :
  valid_version v ->
  v = read_active "" (w_fs w) ->
  do_DELETE (delete_path v) w
  = (Ok (409%Z, JObj [("error", JStr "Cannot delete the active build")]), w).
Proof.
  intros Hv Hact. rewrite (do_DELETE_guard v w Hv).
  rewrite <- Hact, String.eqb_refl. reflexivity.
Qed.

Lemma delete_active_refused_witness :
  do_DELETE "/admin/api/builds/2024-02-01" Scenario.w_active
  = (Ok (409%Z, JObj [("error", JStr "Cannot delete the active build")]),
     Scenario.w_active)
  /\ path_exists "2024-02-01.bin" (w_fs Scenario.w_active) = true.
Proof.
  split.
  - apply (delete_active_refused "2024-02-01" Scenario.w_active).
    + split; [discriminate | reflexivity].
    + vm_compute. reflexivity.
  - vm_compute. reflexivity.
Defined.

(** C9.  The conflict check comes before the existence check: when the
    pointer names [v] and no file [v.bin] exists, the answer is 409 and not
    404, while any other missing version of the same store whose file
    name has at most 255 bytes gets 404. *)
Theorem delete_dangling_active_conflict (v : string) (w : world) :
  valid_version v ->
  v = read_active "" (w_fs w) ->
  path_exists (PyPath.bin_name v) (w_fs w) = false ->
  do_DELETE (delete_path v) w
  = (Ok (409%Z, JObj [("error", JStr "Cannot delete the active build")]), w)
  /\
  (forall u, valid_version u -> u <> v ->
     fits (PyPath.bin_name u) = true ->
     path_exists (PyPath.bin_name u) (w_fs w) = false ->
     do_DELETE (delete_path u) w
     = (Ok (404%Z, JObj [("error", JStr ("Build " ++ u ++ " not found"))]), w)).
Proof.
  intros Hv Hact Hmiss. split.
  - rewrite (do_DELETE_guard v w Hv).
    rewrite <- Hact, String.eqb_refl. reflexivity.
  - intros u Hu Hne Hfit Humiss. rewrite (do_DELETE_checks u w Hu Hfit).
    rewrite <- Hact, Humiss.
    destruct (String.eqb u v) eqn:He; [| reflexivity].
    apply String.eqb_eq in He. contradiction.
Qed.

Lemma delete_dangling_active_conflict_witness :
  path_exists "2023-12-01.bin" (w_fs Scenario.w_dangling) = false /\
  do_DELETE "/admin/api/builds/2023-12-01" Scenario.w_dangling
  = (Ok (409%Z, JObj [("error", JStr "Cannot delete the active build")]),
     Scenario.w_dangling) /\
  do_DELETE (delete_path "2023-11-01") Scenario.w_dangling
  = (Ok (404%Z, JObj [("error", JStr "Build 2023-11-01 not found")]),
     Scenario.w_dangling).
Proof.
  split; [vm_compute; reflexivity |].
  destruct (delete_dangling_active_conflict "2023-12-01" Scenario.w_dangling)
    as [Hconflict Hother].
  - split; [discriminate | reflexivity].
  - vm_compute. reflexivity.
  - vm_compute. reflexivity.
  - split; [exact Hconflict |].
    apply (Hother "2023-11-01").
    + split; [discriminate | reflexivity].
    + discriminate.
    + vm_compute. reflexivity.
    + vm_compute. reflexivity.
Defined.

(** C7 (as amended).  Deleting an existing version that the pointer does
    not name answers 200 and removes the file [v.bin] and nothing else.
    When no file of the store is named exactly [.bin], [list_builds] no
    longer shows [v]. *)
Theorem delete_inactive_removes (v : string) (w : world) :
  valid_version v ->
  path_exists (PyPath.bin_name v) (w_fs w) = true ->
  v <> read_active "" (w_fs w) ->
  exists w',
    do_DELETE (delete_path v) w
    = (Ok (200%Z, JObj [("ok", JBool true); ("deleted", JStr v)]), w')
    /\ path_exists (PyPath.bin_name v) (w_fs w') = false
    /\ (forall name, name <> PyPath.bin_name v ->
          lookup_entry name (w_fs w') = lookup_entry name (w_fs w))
    /\ feather_bin (w_fs w') = feather_bin (w_fs w)
    /\ (store_ok (w_fs w) ->
        ~ In v (map version (list_builds (w_fs w')))).
Proof.
  intros Hv Hex Hne.
  pose proof (path_exists_filename _ _ Hex) as Hfn.
  destruct (path_exists_inv _ _ Hex) as (d & x & Hd & Hx).
  rewrite (do_DELETE_checks v w Hv (is_filename_fits _ Hfn)), Hex.
  destruct (String.eqb v (read_active "" (w_fs w))) eqn:He;
    [apply String.eqb_eq in He; contradiction |].
  unfold bind. rewrite (unlink_existing _ w d x Hd Hx). unfold ret.
  eexists. split; [reflexivity |].
  assert (Hgone : path_exists (PyPath.bin_name v)
            (w_fs (set_fs (Fs (Some (delete (PyPath.bin_name v) d))
                              (feather_bin (w_fs w))) w)) = false).
  { unfold path_exists, lookup_entry. cbn [set_fs w_fs builds_dir].
    rewrite Hfn. now rewrite lookup_delete_eq. }
  split; [exact Hgone |]. split; [| split; [reflexivity |]].
  - intros name Hname. unfold lookup_entry. cbn [set_fs w_fs builds_dir].
    rewrite Hd. destruct (is_filename name); [| reflexivity].
    now apply lookup_delete_ne.
  - intros Hok. rewrite list_builds_version_exists; [congruence |].
    unfold store_ok, lookup_entry in *. cbn [set_fs w_fs builds_dir].
    rewrite Hd in Hok. destruct (is_filename ".bin"); [| reflexivity].
    destruct (decide (PyPath.bin_name v = ".bin")) as [-> | Hn].
    + apply lookup_delete_eq.
    + now rewrite lookup_delete_ne.
Qed.

Lemma delete_inactive_removes_witness :
  exists w',
    do_DELETE "/admin/api/builds/2024-01-01" Scenario.w_active
    = (Ok (200%Z, JObj [("ok", JBool true); ("deleted", JStr "2024-01-01")]), w')
    /\ path_exists "2024-01-01.bin" (w_fs w') = false
    /\ ~ In "2024-01-01" (map version (list_builds (w_fs w'))).
Proof.
  destruct (delete_inactive_removes "2024-01-01" Scenario.w_active)
    as (w' & Hret & Hgone & _ & _ & Hlist).
  - split; [discriminate | reflexivity].
  - vm_compute. reflexivity.
  - vm_compute. discriminate.
  - exists w'. split; [exact Hret |]. split; [exact Hgone |].
    apply Hlist. vm_compute. reflexivity.
Defined.

(** ** Listing *)




(** C7 as stated fails on the same kind of store: deleting version [.bin]
    removes [.bin.bin], and the file [.bin] is still listed as version
    [.bin]. *)
Lemma delete_hidden_still_listed :
  valid_version ".bin"
  /\ path_exists (PyPath.bin_name ".bin") (w_fs Scenario.w_hidden_other) = true
  /\ ".bin" <> read_active "" (w_fs Scenario.w_hidden_other)
  /\ exists w',
       do_DELETE (delete_path ".bin") Scenario.w_hidden_other
       = (Ok (200%Z, JObj [("ok", JBool true); ("deleted", JStr ".bin")]), w')
       /\ In ".bin" (map version (list_builds (w_fs w'))).
Proof.
  split; [split; [discriminate | reflexivity] |].
  split; [vm_compute; reflexivity |].
  split; [vm_compute; discriminate |].
  eexists. split; [vm_compute; reflexivity |].
  vm_compute. left. reflexivity.
Qed.

(** ** Probing and the status report *)

(** Whatever the request to the health endpoint meets, [get_health]
    returns a value and raises nothing; a transport error, a timeout, a
    status outside 2xx and a body that is not JSON all come back as
    [None], and a 2xx answer with a JSON body comes back as that body,
    whatever JSON value it is.  The one request is counted and nothing
    else changes. *)
Lemma get_health_collapses (E : env) (w : world) :
  (exists v, get_health E w = (Ok v, after_request w))
  /\ (probe_failed (health_endpoint E (w_probes w)) ->
      get_health E w = (Ok JNull, after_request w))
  /\ (forall status v,
        health_endpoint E (w_probes w) = Responded status (Json v) ->
        (200 <= status < 300)%Z ->
        get_health E w = (Ok v, after_request w)).
Proof.
  rewrite get_health_eq. split; [eexists; reflexivity |]. split.
  - intros Hf. now rewrite probe_failed_None.
  - intros status v -> Hs. now rewrite health_of_success.
Qed.

Lemma get_health_collapses_witness :
  get_health Scenario.E_down Scenario.w_unset
  = (Ok JNull, after_request Scenario.w_unset)
  /\ get_health (Env (fun _ => Responded 503 (Json (JObj [])))
                     (fun _ => Exited 0)) Scenario.w_unset
     = (Ok JNull, after_request Scenario.w_unset)
  /\ get_health (Env (fun _ => Responded 200 NotJson)
                     (fun _ => Exited 0)) Scenario.w_unset
     = (Ok JNull, after_request Scenario.w_unset)
  /\ get_health Scenario.E_third (after_probes 2 Scenario.w_unset)
     = (Ok (JObj [("uptime_secs", JNum 1)]),
        after_request (after_probes 2 Scenario.w_unset)).
Proof.
  split; [| split; [| split]].
  - apply (get_health_collapses Scenario.E_down Scenario.w_unset). exact I.
  - apply (get_health_collapses
             (Env (fun _ => Responded 503 (Json (JObj [])))
                  (fun _ => Exited 0)) Scenario.w_unset).
    left. simpl. lia.
  - apply (get_health_collapses
             (Env (fun _ => Responded 200 NotJson)
                  (fun _ => Exited 0)) Scenario.w_unset).
    right. reflexivity.
  - apply (get_health_collapses Scenario.E_third
             (after_probes 2 Scenario.w_unset)) with (status := 200%Z).
    + reflexivity.
    + lia.
Defined.

(** C8.  The docstring of [get_health] promises a dict or [None], the
    structured snapshot or the unreachable value of the claim.  On a 200
    answer whose body is the JSON string "ok" the function returns that
    string, which is neither; [GET /status] then reports nothing and dies
    of [AttributeError] at [health.get].  A 200 answer with the body
    [null] comes back as [None], the value of an unreachable service. *)
Theorem get_health_returns_non_dict :
  get_health (Scenario.E_body (JStr "ok")) Scenario.w_active
  = (Ok (JStr "ok"), after_request Scenario.w_active)
  /\ (forall items, JStr "ok" <> JObj items)
  /\ JStr "ok" <> JNull
  /\ do_GET (Scenario.E_body (JStr "ok")) "/admin/api/status" Scenario.w_active
     = (Raise AttributeError, after_request Scenario.w_active)
  /\ get_health (Scenario.E_body JNull) Scenario.w_active
     = get_health Scenario.E_down Scenario.w_active.
Proof.
  split; [vm_compute; reflexivity |].
  split; [discriminate |].
  split; [discriminate |].
  split; vm_compute; reflexivity.
Qed.

Section Status.

Variable E : env.

Lemma list_builds_count (f : fs) : length (list_builds f) = artifact_count f.
Proof.
  unfold artifact_count. destruct (builds_dir f) as [d|] eqn:Hd.
  - now apply list_builds_length.
  - unfold list_builds. now rewrite Hd.
Qed.

(** [GET /status] when the prober's value is falsy: no [get] is called. *)
Lemma do_GET_status_falsy (w : world) :
  truthy (health_of (health_endpoint E (w_probes w))) = false ->
  do_GET E "/admin/api/status" w
  = (Ok (200%Z,
         JObj [("active_version", JStr (read_active "unknown" (w_fs w)));
               ("healthy",
                JBool (is_not_None (health_of (health_endpoint E (w_probes w)))));
               ("uptime_secs", JNum 0);
               ("build_count", JNum (Z.of_nat (artifact_count (w_fs w))))]),
     after_request w).
Proof.
  intros Hf. unfold do_GET.
  change (String.eqb "/admin/api/status" "/admin/api/builds") with false.
  change (String.eqb "/admin/api/status" "/admin/api/status") with true.
  cbv iota. unfold bind at 1. rewrite get_health_eq, Hf.
  unfold bind, gets, ret. cbn [w_fs after_request].
  now rewrite list_builds_count.
Qed.

End Status.

(** C1 (as amended).  With no [ACTIVE_FILE] and a failed health probe,
    [GET /status] answers 200 with [active_version] "unknown", [healthy]
    false, [uptime_secs] 0 and [build_count] the number of artifacts. *)
Theorem status_without_pointer (E : env) (w : world) :
  active_pointer (w_fs w) = None ->
  probe_failed (health_endpoint E (w_probes w)) ->
  do_GET E "/admin/api/status" w
  = (Ok (200%Z,
         JObj [("active_version", JStr "unknown");
               ("healthy", JBool false);
               ("uptime_secs", JNum 0);
               ("build_count", JNum (Z.of_nat (artifact_count (w_fs w))))]),
     after_request w).
Proof.
  intros Hptr Hfail.
  rewrite do_GET_status_falsy by (now rewrite probe_failed_None).
  rewrite read_active_pointer, Hptr, (probe_failed_None _ Hfail).
  reflexivity.
Qed.

Lemma status_without_pointer_witness :
  artifact_count Scenario.fs_unset = 2%nat /\
  do_GET Scenario.E_down "/admin/api/status" Scenario.w_unset
  = (Ok (200%Z,
         JObj [("active_version", JStr "unknown");
               ("healthy", JBool false);
               ("uptime_secs", JNum 0);
               ("build_count", JNum 2)]),
     after_request Scenario.w_unset).
Proof.
  split; [vm_compute; reflexivity |].
  apply (status_without_pointer Scenario.E_down Scenario.w_unset).
  - vm_compute. reflexivity.
  - exact I.
Defined.

(** C1 as stated fails on the specification's own scenario: two builds,
    no pointer, service down; [active_version] is "unknown", not the empty
    string.  And [healthy] follows the probe: on the same store a service
    that answers is reported healthy. *)
Lemma status_unset_pointer_not_empty :
  map version (list_builds Scenario.fs_unset) = ["2024-02-01"; "2024-01-01"]
  /\ active_pointer Scenario.fs_unset = None
  /\ exists body w',
       do_GET Scenario.E_down "/admin/api/status" Scenario.w_unset
       = (Ok (200%Z, body), w')
       /\ field "build_count" body = Some (JNum 2)
       /\ field "healthy" body = Some (JBool false)
       /\ field "active_version" body = Some (JStr "unknown")
       /\ field "active_version" body <> Some (JStr "")
       /\ exists body2 w2,
            do_GET Cases.E_up "/admin/api/status" Scenario.w_unset
            = (Ok (200%Z, body2), w2)
            /\ field "healthy" body2 = Some (JBool true).
Proof.
  split; [vm_compute; reflexivity |]. split; [vm_compute; reflexivity |].
  eexists _, _. split; [vm_compute; reflexivity |].
  split; [reflexivity |]. split; [reflexivity |]. split; [reflexivity |].
  split; [discriminate |].
  eexists _, _. split; [vm_compute; reflexivity | reflexivity].
Qed.

(** C10 (as amended).  Let the endpoint answer every request with a 2xx
    response whose body parses to a falsy value other than [null]
    ([false], [0], the empty string, list or object).  The poll loop of
    [promote_version] never counts it as reachable and ends, after 15
    probes, on the degraded message, while [GET /status] reports
    [healthy] true, with [uptime_secs] 0, for the same answer. *)
Theorem falsy_health_treated_inconsistently
    (E : env) (status : Z) (j : json) (v : string) (w : world) :
  (200 <= status < 300)%Z ->
  truthy j = false ->
  j <> JNull ->
  (forall i, health_endpoint E i = Responded status (Json j)) ->
  path_exists (PyPath.bin_name v) (w_fs w) = true ->
  (exists rc, supervisor E (w_restarts w) = Exited rc) ->
  (exists w', promote_version E v w = (Ok (true, degraded_message), w')
              /\ w_probes w' = (w_probes w + 15)%nat)
  /\
  (exists body, do_GET E "/admin/api/status" w
                = (Ok (200%Z, body), after_request w)
                /\ field "healthy" body = Some (JBool true)
                /\ field "uptime_secs" body = Some (JNum 0)).
Proof.
  intros Hs Hfalsy Hnn Hans Hex [rc Hrc].
  assert (Hof : forall i, health_of (health_endpoint E i) = j)
    by (intros i; rewrite Hans; now apply health_of_success).
  split.
  - destruct (promote_reaches_poll E v w rc Hex Hrc) as (w0 & -> & Hp & _).
    eexists. split.
    + apply poll_health_exhausted. intros i _. now rewrite Hof.
    + unfold after_probes, HEALTH_BOUND. cbn [w_probes]. now rewrite Hp.
  - rewrite do_GET_status_falsy by (now rewrite Hof).
    eexists. split; [reflexivity |]. rewrite Hof.
    split; [| reflexivity].
    destruct j; first [reflexivity | congruence].
Qed.

Lemma falsy_health_treated_inconsistently_witness :
  (exists w', promote_version (Scenario.E_body (JObj [])) "2024-02-01"
                              Scenario.w_unset
              = (Ok (true, degraded_message), w')
              /\ w_probes w' = 15%nat)
  /\
  (exists body, do_GET (Scenario.E_body (JObj [])) "/admin/api/status"
                       Scenario.w_unset
                = (Ok (200%Z, body), after_request Scenario.w_unset)
                /\ field "healthy" body = Some (JBool true)
                /\ field "uptime_secs" body = Some (JNum 0)).
Proof.
  apply (falsy_health_treated_inconsistently
           (Scenario.E_body (JObj [])) 200%Z (JObj []) "2024-02-01"
           Scenario.w_unset).
  - lia.
  - reflexivity.
  - discriminate.
  - intros i. reflexivity.
  - vm_compute. reflexivity.
  - exists 0%Z. reflexivity.
Defined.

(** C10 as stated fails for the falsy value [null]: a 200 answer with
    body [null] parses to [None], and [GET /status] reports [healthy]
    false for it, as the poll loop does. *)
Lemma null_health_reported_unhealthy :
  truthy JNull = false
  /\ get_health (Scenario.E_body JNull) Scenario.w_active
     = (Ok JNull, after_request Scenario.w_active)
  /\ exists body w',
       do_GET (Scenario.E_body JNull) "/admin/api/status" Scenario.w_active
       = (Ok (200%Z, body), w')
       /\ field "healthy" body = Some (JBool false)
       /\ field "healthy" body <> Some (JBool true).
Proof.
  split; [reflexivity |]. split; [vm_compute; reflexivity |].
  eexists _, _. split; [vm_compute; reflexivity |].
  split; [reflexivity | discriminate].
Qed.

(* ===================================================================== *)
(** * Further properties of the controller *)
(* ===================================================================== *)

(** ** Queries *)

Section Queries.

Variable E : env.

(** [GET /status] once the prober has answered. *)
Lemma do_GET_status_unfold (w : world) :
  do_GET E "/admin/api/status" w
  = let h := health_of (health_endpoint E (w_probes w)) in
    match (if truthy h then dict_get h "uptime_secs" (JNum 0)
           else ret (JNum 0)) (after_request w) with
    | (Ok up, w') =>
        (Ok (200%Z,
             JObj [("active_version", JStr (read_active "unknown" (w_fs w)));
                   ("healthy", JBool (is_not_None h));
                   ("uptime_secs", up);
                   ("build_count",
                    JNum (Z.of_nat (artifact_count (w_fs w))))]), w')
    | (Raise e, w') => (Raise e, w')
    end.
Proof.
  unfold do_GET.
  change (String.eqb "/admin/api/status" "/admin/api/builds") with false.
  change (String.eqb "/admin/api/status" "/admin/api/status") with true.
  cbv iota zeta. unfold bind at 1. rewrite get_health_eq.
  unfold bind at 1. unfold gets at 1. unfold bind at 1. unfold gets at 1.
  cbn [w_fs after_request]. unfold bind.
  destruct (truthy (health_of (health_endpoint E (w_probes w)))).
  - destruct (health_of (health_endpoint E (w_probes w)));
      simpl; unfold ret, raise; rewrite ?list_builds_count; reflexivity.
  - unfold ret. now rewrite list_builds_count.
Qed.

End Queries.

(** X1.  A GET request never writes: whatever the path and the answer of
    the health endpoint, also when the handler raises, the file system,
    the clock and the restart count are as before; only [/status] sends a
    health request, and it sends exactly one. *)
Theorem do_GET_read_only (E : env) (path : string) (w : world) :
  snd (do_GET E path w)
  = if String.eqb path "/admin/api/status" then after_request w else w.
Proof.
  destruct (String.eqb path "/admin/api/status") eqn:Hs.
  - apply String.eqb_eq in Hs. subst path.
    rewrite do_GET_status_unfold. cbv zeta.
    destruct (truthy (health_of (health_endpoint E (w_probes w)))).
    + destruct (health_of (health_endpoint E (w_probes w))); reflexivity.
    + reflexivity.
  - unfold do_GET. rewrite Hs.
    now destruct (String.eqb path "/admin/api/builds").
Qed.

(** X2.  When the health endpoint answers 2xx with a non-empty JSON
    object, [GET /status] reports [healthy] true, the object's
    [uptime_secs] (0 when the key is missing), the stripped pointer text
    ("unknown" without a pointer file) and the number of artifacts. *)
Theorem status_reports_health (E : env) (w : world) (status : Z)
    (items : list (string * json)) :
  health_endpoint E (w_probes w) = Responded status (Json (JObj items)) ->
  (200 <= status < 300)%Z ->
  items <> [] ->
  do_GET E "/admin/api/status" w
  = (Ok (200%Z,
         JObj [("active_version",
                JStr (match active_pointer (w_fs w) with
                      | Some text => PyStr.strip text
                      | None => "unknown"
                      end));
               ("healthy", JBool true);
               ("uptime_secs",
                match assoc "uptime_secs" items with
                | Some up => up
                | None => JNum 0
                end);
               ("build_count", JNum (Z.of_nat (artifact_count (w_fs w))))]),
     after_request w).
Proof.
  intros Hans Hs Hne. rewrite do_GET_status_unfold, Hans.
  rewrite health_of_success by exact Hs. cbv zeta.
  rewrite read_active_pointer.
  destruct items as [|kv items]; [congruence | reflexivity].
Qed.

Lemma status_reports_health_witness :
  do_GET Cases.E_up "/admin/api/status" Scenario.w_active
  = (Ok (200%Z,
         JObj [("active_version", JStr "2024-02-01");
               ("healthy", JBool true);
               ("uptime_secs", JNum 42);
               ("build_count", JNum 2)]),
     after_request Scenario.w_active)
  /\
  do_GET (Scenario.E_body (JObj [("status", JStr "ok")]))
         "/admin/api/status" Scenario.w_unset
  = (Ok (200%Z,
         JObj [("active_version", JStr "unknown");
               ("healthy", JBool true);
               ("uptime_secs", JNum 0);
               ("build_count", JNum 2)]),
     after_request Scenario.w_unset).
Proof.
  split.
  - apply (status_reports_health Cases.E_up Scenario.w_active 200%Z
             [("uptime_secs", JNum 42)]);
      [reflexivity | lia | discriminate].
  - apply (status_reports_health
             (Scenario.E_body (JObj [("status", JStr "ok")]))
             Scenario.w_unset 200%Z [("status", JStr "ok")]);
      [reflexivity | lia | discriminate].
Defined.

(** X3.  When the health endpoint answers 2xx with a truthy JSON value
    that is not an object (a number, [true], a string, a list),
    [GET /status] dies of [AttributeError]: the value has no [get]. *)
Theorem status_dies_on_non_object (E : env) (w : world) (status : Z)
    (j : json) :
  health_endpoint E (w_probes w) = Responded status (Json j) ->
  (200 <= status < 300)%Z ->
  truthy j = true ->
  (forall items, j <> JObj items) ->
  do_GET E "/admin/api/status" w = (Raise AttributeError, after_request w).
Proof.
  intros Hans Hs Ht Hno. rewrite do_GET_status_unfold, Hans.
  rewrite health_of_success by exact Hs. cbv zeta. rewrite Ht.
  destruct j; try reflexivity. exfalso. now apply (Hno items).
Qed.

Lemma status_dies_on_non_object_witness :
  do_GET (Scenario.E_body (JStr "ok")) "/admin/api/status" Scenario.w_active
  = (Raise AttributeError, after_request Scenario.w_active).
Proof.
  apply (status_dies_on_non_object (Scenario.E_body (JStr "ok"))
           Scenario.w_active 200%Z (JStr "ok"));
    [reflexivity | lia | reflexivity | discriminate].
Defined.

(** ** What the workflow does to the world *)

Section Workflow.

Variable E : env.

Lemma app_inj_suffix (s1 s2 t : string) : s1 ++ t = s2 ++ t -> s1 = s2.
Proof.
  revert s2. induction s1 as [|a s1 IH]; intros [|b s2] Heq.
  - reflexivity.
  - apply (f_equal String.length) in Heq.
    rewrite app_nil_l, app_cons in Heq. simpl in Heq.
    rewrite app_length in Heq. lia.
  - apply (f_equal String.length) in Heq.
    rewrite app_nil_l, app_cons in Heq. simpl in Heq.
    rewrite app_length in Heq. lia.
  - rewrite !app_cons in Heq. injection Heq as -> Heq.
    f_equal. now apply IH.
Qed.

Lemma bin_name_inj (u v : string) :
  PyPath.bin_name u = PyPath.bin_name v -> u = v.
Proof. apply app_inj_suffix. Qed.

Lemma bin_name_not_active (v : string) : PyPath.bin_name v <> ACTIVE_FILE.
Proof.
  intros Heq. pose proof (glob_bin_name v) as Hg. rewrite Heq in Hg.
  discriminate Hg.
Qed.

(** The poll ends after some [k <= n] rounds of one second each. *)
Lemma poll_health_world (n : nat) (w : world) :
  exists k, (k <= n)%nat /\ snd (poll_health E n w) = after_probes k w.
Proof.
  revert w. induction n as [|n IH]; intros w.
  - exists O. split; [lia |]. simpl. unfold after_probes.
    destruct w; simpl. f_equal; lia.
  - rewrite poll_health_step. cbv zeta.
    destruct (truthy (health_of (health_endpoint E (w_probes w)))).
    + exists 1%nat. split; [lia | reflexivity].
    + destruct (IH (after_probes 1 w)) as (k & Hk & ->).
      exists (S k). split; [lia | apply after_probes_S].
Qed.

(** The world [promote_version] leaves on an existing build. *)
Lemma promote_version_world (v : string) (w : world)
    (d : gmap string file) (src : file) :
  builds_dir (w_fs w) = Some d ->
  is_filename (PyPath.bin_name v) = true ->
  d !! PyPath.bin_name v = Some src ->
  exists k, (k <= HEALTH_BOUND)%nat /\
    snd (promote_version E v w)
    = World (w_fs (committed v src d w)) (w_now w + Z.of_nat k)
            (w_probes w + k) (S (w_restarts w)).
Proof.
  intros Hd Hf Hs. rewrite (promote_version_found E v w d src Hd Hf Hs).
  unfold bind, restart_feather.
  replace (w_restarts (committed v src d w)) with (w_restarts w) by reflexivity.
  destruct (supervisor E (w_restarts w)) as [rc|].
  - match goal with |- context [poll_health E HEALTH_BOUND ?w0] =>
      destruct (poll_health_world HEALTH_BOUND w0) as (k & Hk & ->)
    end.
    exists k. split; [exact Hk | reflexivity].
  - exists O. split; [lia |]. simpl. f_equal; lia.
Qed.

Lemma committed_entry (v : string) (src : file) (d : gmap string file)
    (w : world) (name : string) :
  builds_dir (w_fs w) = Some d ->
  name <> ACTIVE_FILE ->
  lookup_entry name (w_fs (committed v src d w)) = lookup_entry name (w_fs w).
Proof.
  intros Hd Hne. unfold lookup_entry, committed.
  cbn [set_fs w_fs builds_dir]. rewrite Hd.
  destruct (is_filename name); [| reflexivity].
  now rewrite lookup_insert_ne.
Qed.

(** The promotion changes no entry of the store but the pointer file. *)
Lemma promote_version_entries (v : string) (w : world) (name : string) :
  name <> ACTIVE_FILE ->
  lookup_entry name (w_fs (snd (promote_version E v w)))
  = lookup_entry name (w_fs w).
Proof.
  intros Hne.
  destruct (path_exists (PyPath.bin_name v) (w_fs w)) eqn:Hex.
  - pose proof (path_exists_filename _ _ Hex) as Hf.
    destruct (path_exists_inv _ _ Hex) as (d & src & Hd & Hs).
    destruct (promote_version_world v w d src Hd Hf Hs) as (k & _ & ->).
    cbn [w_fs]. now apply committed_entry.
  - now rewrite promote_version_absent.
Qed.

(** After the promotion of an existing build the pointer reads as the
    stripped version. *)
Lemma promote_version_read_back (v : string) (w : world) (default : string) :
  path_exists (PyPath.bin_name v) (w_fs w) = true ->
  read_active default (w_fs (snd (promote_version E v w))) = PyStr.strip v.
Proof.
  intros Hex. pose proof (path_exists_filename _ _ Hex) as Hf.
  destruct (path_exists_inv _ _ Hex) as (d & src & Hd & Hs).
  destruct (promote_version_world v w d src Hd Hf Hs) as (k & _ & ->).
  cbn [w_fs]. now rewrite read_active_pointer, committed_pointer.
Qed.

Lemma promote_version_keeps_build (v u : string) (w : world) :
  path_exists (PyPath.bin_name u) (w_fs (snd (promote_version E v w)))
  = path_exists (PyPath.bin_name u) (w_fs w).
Proof.
  unfold path_exists.
  now rewrite promote_version_entries by apply bin_name_not_active.
Qed.

End Workflow.

(** X4.  Promoting an existing build stages it: whatever the supervisor
    and the health endpoint do, [FEATHER_BIN] then holds the build's data
    and modification time with mode 0o755, one restart has been asked
    for, and no entry of the store other than the pointer file has
    changed. *)
Theorem promote_version_stages_build (E : env) (v : string) (w : world)
    (src : file) :
  lookup_entry (PyPath.bin_name v) (w_fs w) = Some src ->
  feather_bin (w_fs (snd (promote_version E v w)))
  = Some (File (f_data src) (f_mtime src) 493)
  /\ w_restarts (snd (promote_version E v w)) = S (w_restarts w)
  /\ (forall name, name <> ACTIVE_FILE ->
        lookup_entry name (w_fs (snd (promote_version E v w)))
        = lookup_entry name (w_fs w)).
Proof.
  intros Hsrc. destruct (lookup_entry_inv _ _ _ Hsrc) as (d & Hd & Hf & Hs).
  split; [| split].
  - destruct (promote_version_world E v w d src Hd Hf Hs) as (k & _ & ->).
    reflexivity.
  - destruct (promote_version_world E v w d src Hd Hf Hs) as (k & _ & ->).
    reflexivity.
  - intros name Hne. now apply promote_version_entries.
Qed.

Lemma promote_version_stages_build_witness :
  feather_bin (w_fs (snd (promote_version Scenario.E_hang "20240201"
                                          Cases.w_numbered)))
  = Some (File "ELF2" 1706745600 493).
Proof.
  apply (promote_version_stages_build Scenario.E_hang "20240201"
           Cases.w_numbered (File "ELF2" 1706745600 420)).
  vm_compute. reflexivity.
Defined.

(** X5.  The workflow is bounded: for every version, store, supervisor
    and health endpoint, [promote_version] sends at most 15 health
    requests, sleeps one second per request and nothing more, and asks
    for at most one restart. *)
Theorem promote_version_bounded (E : env) (v : string) (w : world) :
  exists k, (k <= 15)%nat
    /\ w_probes (snd (promote_version E v w)) = (w_probes w + k)%nat
    /\ w_now (snd (promote_version E v w)) = (w_now w + Z.of_nat k)%Z
    /\ (w_restarts (snd (promote_version E v w)) <= S (w_restarts w))%nat.
Proof.
  destruct (path_exists (PyPath.bin_name v) (w_fs w)) eqn:Hex.
  - pose proof (path_exists_filename _ _ Hex) as Hf.
    destruct (path_exists_inv _ _ Hex) as (d & src & Hd & Hs).
    destruct (promote_version_world E v w d src Hd Hf Hs) as (k & Hk & ->).
    exists k. cbn [w_probes w_now w_restarts].
    split; [exact Hk |]. repeat split; lia.
  - rewrite promote_version_absent by exact Hex. exists O.
    split; [lia |]. repeat split; lia.
Qed.

(** X6.  Right after the promotion of an existing, valid version without
    surrounding whitespace, a request to delete that version is refused
    with 409 and its file is still there, whatever the restart and the
    health poll did. *)
Theorem promote_then_delete_refused (E : env) (v : string) (w : world) :
  valid_version v ->
  PyStr.strip v = v ->
  path_exists (PyPath.bin_name v) (w_fs w) = true ->
  do_DELETE (delete_path v) (snd (promote_version E v w))
  = (Ok (409%Z, JObj [("error", JStr "Cannot delete the active build")]),
     snd (promote_version E v w))
  /\ path_exists (PyPath.bin_name v) (w_fs (snd (promote_version E v w)))
     = true.
Proof.
  intros Hv Hstrip Hex. split.
  - rewrite (do_DELETE_guard v _ Hv).
    rewrite (promote_version_read_back E v w "" Hex), Hstrip.
    now rewrite String.eqb_refl.
  - now rewrite promote_version_keeps_build.
Qed.

Lemma promote_then_delete_refused_witness :
  do_DELETE "/admin/api/builds/2024-02-01"
            (snd (promote_version Scenario.E_third "2024-02-01"
                                  Scenario.w_unset))
  = (Ok (409%Z, JObj [("error", JStr "Cannot delete the active build")]),
     snd (promote_version Scenario.E_third "2024-02-01" Scenario.w_unset)).
Proof.
  apply (promote_then_delete_refused Scenario.E_third "2024-02-01"
           Scenario.w_unset).
  - split; [discriminate | reflexivity].
  - reflexivity.
  - vm_compute. reflexivity.
Defined.

(** X7.  The last promotion wins: after promoting [u] and then [v], both
    existing builds, the pointer file holds [v] and [FEATHER_BIN] holds
    the data of [v], and both build files are still in the store. *)
Theorem promote_twice_last_wins (E : env) (u v : string) (w : world)
    (src : file) :
  path_exists (PyPath.bin_name u) (w_fs w) = true ->
  lookup_entry (PyPath.bin_name v) (w_fs w) = Some src ->
  let w2 := snd (promote_version E v (snd (promote_version E u w))) in
  active_pointer (w_fs w2) = Some v
  /\ feather_bin (w_fs w2) = Some (File (f_data src) (f_mtime src) 493)
  /\ path_exists (PyPath.bin_name u) (w_fs w2) = true
  /\ path_exists (PyPath.bin_name v) (w_fs w2) = true.
Proof.
  intros Hu Hv w2. subst w2.
  set (w1 := snd (promote_version E u w)).
  assert (Hv1 : lookup_entry (PyPath.bin_name v) (w_fs w1) = Some src).
  { unfold w1. rewrite promote_version_entries by apply bin_name_not_active.
    exact Hv. }
  destruct (lookup_entry_inv _ _ _ Hv1) as (d1 & Hd1 & Hf1 & Hs1).
  destruct (promote_version_world E v w1 d1 src Hd1 Hf1 Hs1) as (k & _ & Hw2).
  split; [| split; [| split]].
  - rewrite Hw2. cbn [w_fs]. apply committed_pointer.
  - rewrite Hw2. reflexivity.
  - rewrite promote_version_keeps_build. unfold w1.
    now rewrite promote_version_keeps_build.
  - rewrite promote_version_keeps_build. unfold path_exists.
    now rewrite Hv1.
Qed.

Lemma promote_twice_last_wins_witness :
  let w2 := snd (promote_version Scenario.E_down "2024-01-01"
                   (snd (promote_version Scenario.E_down "2024-02-01"
                                         Scenario.w_unset))) in
  active_pointer (w_fs w2) = Some "2024-01-01"
  /\ feather_bin (w_fs w2) = Some (File "ELF" 1704067200 493).
Proof.
  destruct (promote_twice_last_wins Scenario.E_down "2024-02-01"
              "2024-01-01" Scenario.w_unset (Scenario.bin 1704067200))
    as (Hp & Hb & _).
  - vm_compute. reflexivity.
  - vm_compute. reflexivity.
  - split; [exact Hp | exact Hb].
Defined.

(** ** More on the listing *)

Section Listing.

Context {A : Type} (key : A -> string).

Lemma NoDup_key_inj (l : list A) (x y : A) :
  NoDup (map key l) -> In x l -> In y l -> key x = key y -> x = y.
Proof.
  induction l as [|a l IH]; simpl; [contradiction |].
  intros [Ha Hnd]%NoDup_cons [-> | Hx] [-> | Hy] Hk.
  - reflexivity.
  - exfalso. apply Ha. rewrite Hk.
    apply list_elem_of_In, in_map, Hy.
  - exfalso. apply Ha. rewrite <- Hk.
    apply list_elem_of_In, in_map, Hx.
  - now apply IH.
Qed.

Lemma filter_key_nil (k : string) (l : list A) :
  k ∉ map key l -> List.filter (fun x => String.eqb (key x) k) l = [].
Proof.
  induction l as [|a l IH]; simpl; intros Hk; [reflexivity |].
  destruct (String.eqb (key a) k) eqn:He.
  - apply String.eqb_eq in He. exfalso. apply Hk. rewrite He. constructor.
  - apply IH. intros Hin. apply Hk. now constructor.
Qed.

Lemma NoDup_key_filter_one (k : string) (l : list A) (b : A) :
  NoDup (map key l) -> In b l -> key b = k ->
  List.filter (fun x => String.eqb (key x) k) l = [b].
Proof.
  intros Hnd Hin Hk. induction l as [|a l IH]; [contradiction |].
  simpl in Hnd. apply NoDup_cons in Hnd as [Ha Hl].
  simpl. destruct (String.eqb (key a) k) eqn:He.
  - apply String.eqb_eq in He. destruct Hin as [-> | Hin].
    + f_equal. apply filter_key_nil. now rewrite <- Hk.
    + exfalso. apply Ha. rewrite He, <- Hk.
      apply list_elem_of_In, in_map, Hin.
  - destruct Hin as [-> | Hin].
    + rewrite Hk, String.eqb_refl in He. discriminate.
    + now apply IH.
Qed.

Lemma sorted_desc_canonical (l1 l2 : list A) :
  Permutation l1 l2 ->
  NoDup (map key l1) ->
  sorted_desc key l1 = sorted_desc key l2.
Proof.
  intros Hperm Hnd.
  assert (Hs1 : Permutation (sorted_desc key l1) l1)
    by apply sorted_desc_perm.
  assert (Hs2 : Permutation (sorted_desc key l2) l2)
    by apply sorted_desc_perm.
  apply (StronglySorted_unique_strong (desc key)).
  - intros x1 x2 Hx1 Hx2 H12 H21.
    apply (NoDup_key_inj l1); [exact Hnd | | |].
    + apply list_elem_of_In in Hx1. now apply (Permutation_in _ Hs1).
    + apply list_elem_of_In in Hx2.
      apply (Permutation_in _ (Permutation_sym Hperm)).
      now apply (Permutation_in _ Hs2).
    + unfold desc in H12, H21. now apply (anti_symm String.le).
  - apply sorted_desc_sorted.
  - apply sorted_desc_sorted.
  - now rewrite Hs1, Hs2.
Qed.

End Listing.

(** X8.  Sorting newest first does not depend on the order in which the
    directory hands out its entries: two enumerations of the same entries
    with pairwise distinct keys sort to the same list. *)
Theorem sorted_desc_order_independent {A : Type} (key : A -> string)
    (l1 l2 : list A) :
  Permutation l1 l2 ->
  NoDup (map key l1) ->
  sorted_desc key l1 = sorted_desc key l2
  /\ Permutation (sorted_desc key l1) l2
  /\ StronglySorted (desc key) (sorted_desc key l1).
Proof.
  intros Hperm Hnd. split; [| split].
  - now apply sorted_desc_canonical.
  - now rewrite sorted_desc_perm.
  - apply sorted_desc_sorted.
Qed.

Lemma sorted_desc_order_independent_witness :
  sorted_desc (fun s : string => s) ["2024-01-01"; "2024-03-01"; "2024-02-01"]
  = sorted_desc (fun s : string => s)
                ["2024-02-01"; "2024-01-01"; "2024-03-01"].
Proof.
  apply (sorted_desc_order_independent (fun s : string => s)
           ["2024-01-01"; "2024-03-01"; "2024-02-01"]
           ["2024-02-01"; "2024-01-01"; "2024-03-01"]).
  - apply perm_trans with ["2024-01-01"; "2024-02-01"; "2024-03-01"].
    + apply perm_skip, perm_swap.
    + apply perm_swap.
  - vm_compute. repeat constructor; intros Hin;
      repeat match goal with
             | H : _ ∈ _ |- _ => inversion H; clear H; subst
             end.
Defined.

Section ListingFacts.

Lemma in_list_builds (f : fs) (d : gmap string file) (b : build) :
  builds_dir f = Some d ->
  In b (list_builds f) <->
  exists name x, d !! name = Some x /\ PyPath.glob_bin name = true /\
                 is_filename name = true /\
                 b = build_of (read_active "" f) (name, x).
Proof.
  intros Hd. unfold list_builds. rewrite Hd, in_map_iff. split.
  - intros ([name x] & <- & Hin).
    apply (Permutation_in _ (sorted_desc_perm _ _)) in Hin.
    apply list_elem_of_In, glob_spec in Hin as (Hx & Hg & Hf).
    now exists name, x.
  - intros (name & x & Hx & Hg & Hf & ->). exists (name, x).
    split; [reflexivity |].
    apply (Permutation_in _ (Permutation_sym (sorted_desc_perm _ _))).
    apply list_elem_of_In, glob_spec. now split.
Qed.

Lemma list_builds_file_listed (f : fs) (v : string) (x : file) :
  store_ok f ->
  lookup_entry (PyPath.bin_name v) f = Some x ->
  In (Build v (Z.of_nat (String.length (f_data x))) (f_mtime x)
            (String.eqb v (read_active "" f)))
     (list_builds f).
Proof.
  unfold store_ok. intros Hok Hx.
  destruct (lookup_entry_inv _ _ _ Hx) as (d & Hd & Hf & Hdx).
  apply (in_list_builds f d _ Hd). exists (PyPath.bin_name v), x.
  assert (Hv : v <> "").
  { intros ->. unfold PyPath.bin_name in Hx. rewrite app_nil_l in Hx.
    congruence. }
  split; [exact Hdx |]. split; [apply glob_bin_name |].
  split; [exact Hf |].
  unfold build_of. simpl. now rewrite stem_bin_name.
Qed.

(** Writing an entry that [glob] does not select leaves the glob as it
    was, up to the order of enumeration. *)
Lemma glob_insert_other (d : gmap string file) (name : string) (x : file) :
  PyPath.glob_bin name = false ->
  Permutation (glob (<[name := x]> d)) (glob d).
Proof.
  intros Hng. unfold glob.
  assert (Hdrop : forall y rest,
            filter (fun p : string * file =>
                      PyPath.glob_bin p.1 = true /\ is_filename p.1 = true)
                   ((name, y) :: rest)
            = filter (fun p : string * file =>
                        PyPath.glob_bin p.1 = true /\ is_filename p.1 = true)
                     rest).
  { intros y rest. rewrite filter_cons. simpl.
    destruct (decide (PyPath.glob_bin name = true
                      /\ is_filename name = true)) as [[Hg _] |];
      [congruence | reflexivity]. }
  destruct (d !! name) as [old|] eqn:Hold.
  - rewrite <- (insert_delete_eq d name x).
    rewrite (map_to_list_insert (delete name d) name x)
      by apply lookup_delete_eq.
    rewrite <- (map_to_list_delete d name old Hold).
    now rewrite !Hdrop.
  - rewrite (map_to_list_insert d name x Hold). now rewrite Hdrop.
Qed.

End ListingFacts.

(** X9.  On a store without a file named [.bin], the listing reports the
    files as they are: every file [v.bin] appears as version [v] with its
    byte length and modification time, and every listed build is such a
    file; entries whose name does not end in [.bin], the pointer file
    among them, are never listed. *)
Theorem list_builds_reports_files (f : fs) :
  store_ok f ->
  (forall v x, lookup_entry (PyPath.bin_name v) f = Some x ->
     In (Build v (Z.of_nat (String.length (f_data x))) (f_mtime x)
               (String.eqb v (read_active "" f)))
        (list_builds f))
  /\
  (forall b, In b (list_builds f) ->
     exists x, lookup_entry (PyPath.bin_name (version b)) f = Some x
               /\ size b = Z.of_nat (String.length (f_data x))
               /\ timestamp b = f_mtime x).
Proof.
  intros Hok. split.
  - intros v x Hx. now apply list_builds_file_listed.
  - intros b Hb. destruct (builds_dir f) as [d|] eqn:Hd.
    + destruct (proj1 (in_list_builds f d b Hd) Hb)
        as (name & x & Hx & Hg & Hf & Hbuild).
      rewrite Hbuild. exists x. simpl.
      destruct (glob_bin_inv name Hg) as [Hn | [Hn _]].
      * apply (store_ok_dir f d Hd) in Hok. congruence.
      * rewrite <- Hn, (lookup_entry_dir f d name Hd Hf). now split.
    + unfold list_builds in Hb. rewrite Hd in Hb. contradiction.
Qed.

Lemma list_builds_reports_files_witness :
  In (Build "2024-01-01" 3 1704067200 false) (list_builds Scenario.fs_active).
Proof.
  apply (list_builds_reports_files Scenario.fs_active)
    with (v := "2024-01-01") (x := Scenario.bin 1704067200).
  - vm_compute. reflexivity.
  - vm_compute. reflexivity.
Defined.

(** ** Promotion seen through the listing *)

Section PromotionListing.

Variable E : env.

Lemma committed_versions (v : string) (src : file) (d : gmap string file)
    (w : world) :
  builds_dir (w_fs w) = Some d ->
  d !! ".bin" = None ->
  map (fun b => (version b, size b, timestamp b))
      (list_builds (w_fs (committed v src d w)))
  = map (fun b => (version b, size b, timestamp b)) (list_builds (w_fs w)).
Proof.
  intros Hd Hok. unfold list_builds at 2. rewrite Hd.
  unfold list_builds, committed. cbn [set_fs w_fs builds_dir].
  rewrite !map_map. cbn [version size timestamp build_of].
  f_equal. apply sorted_desc_canonical.
  - now apply glob_insert_other.
  - apply glob_stems_NoDup. now rewrite lookup_insert_ne.
Qed.

End PromotionListing.

(** X10.  On a store without a file named [.bin], after the promotion of
    an existing version [v] without surrounding whitespace and without
    carriage return the listing flags [v] and nothing else as active, and
    it shows the same versions, sizes and timestamps, in the same order,
    as before. *)
Theorem promote_then_list (E : env) (v : string) (w : world) (src : file) :
  store_ok (w_fs w) ->
  PyStr.strip v = v ->
  PyStr.free_of PyStr.is_cr v = true ->
  lookup_entry (PyPath.bin_name v) (w_fs w) = Some src ->
  List.filter active (list_builds (w_fs (snd (promote_version E v w))))
  = [Build v (Z.of_nat (String.length (f_data src))) (f_mtime src) true]
  /\
  map (fun b => (version b, size b, timestamp b))
      (list_builds (w_fs (snd (promote_version E v w))))
  = map (fun b => (version b, size b, timestamp b)) (list_builds (w_fs w)).
Proof.
  intros Hok Hstrip _ Hsrc.
  assert (Hex : path_exists (PyPath.bin_name v) (w_fs w) = true)
    by (unfold path_exists; now rewrite Hsrc).
  set (f1 := w_fs (snd (promote_version E v w))).
  assert (Hok1 : store_ok f1).
  { unfold store_ok, f1. now rewrite promote_version_entries. }
  assert (Hsrc1 : lookup_entry (PyPath.bin_name v) f1 = Some src).
  { unfold f1. rewrite promote_version_entries by apply bin_name_not_active.
    exact Hsrc. }
  assert (Hact : read_active "" f1 = v).
  { unfold f1. now rewrite promote_version_read_back. }
  split.
  - rewrite (List.filter_ext_in active
               (fun b => String.eqb (version b) v)).
    + apply (NoDup_key_filter_one version).
      * now apply list_builds_NoDup.
      * pose proof (list_builds_file_listed f1 v src Hok1 Hsrc1) as Hin.
        now rewrite Hact, String.eqb_refl in Hin.
      * reflexivity.
    + intros b Hb. now rewrite (list_builds_active f1 b Hb), Hact.
  - destruct (lookup_entry_inv _ _ _ Hsrc) as (d & Hd & Hf & Hs).
    unfold f1.
    destruct (promote_version_world E v w d src Hd Hf Hs) as (k & _ & ->).
    cbn [w_fs]. apply committed_versions; [exact Hd |].
    now apply (store_ok_dir (w_fs w) d Hd).
Qed.

Lemma promote_then_list_witness :
  List.filter active
    (list_builds (w_fs (snd (promote_version Scenario.E_hang "2024-01-01"
                                             Scenario.w_active))))
  = [Build "2024-01-01" 3 1704067200 true].
Proof.
  apply (promote_then_list Scenario.E_hang "2024-01-01" Scenario.w_active
           (Scenario.bin 1704067200)).
  - vm_compute. reflexivity.
  - reflexivity.
  - reflexivity.
  - vm_compute. reflexivity.
Defined.

(** ** More on the Deletion Guard *)

Section DeletionFacts.

(** Every request either is refused and changes nothing, or dies of the
    existence check and changes nothing, or unlinks the one file
    [version.bin]. *)
Lemma do_DELETE_cases (path : string) (w : world) :
  (exists code body,
     do_DELETE path w = (Ok (code, body), w)
     /\ (code = 400 \/ code = 404 \/ code = 409)%Z)
  \/
  do_DELETE path w = (Raise OSError, w)
  \/
  (exists version d x,
     builds_dir (w_fs w) = Some d
     /\ d !! PyPath.bin_name version = Some x
     /\ version <> read_active "" (w_fs w)
     /\ do_DELETE path w
        = (Ok (200%Z, JObj [("ok", JBool true); ("deleted", JStr version)]),
           set_fs (Fs (Some (delete (PyPath.bin_name version) d))
                      (feather_bin (w_fs w))) w)).
Proof.
  unfold do_DELETE. cbv zeta.
  destruct (PyStr.startswith "/admin/api/builds/" path);
    [| left; eexists _, _; split; [reflexivity | auto]].
  remember (PyStr.strip_by PyStr.is_slash
              (PyStr.drop (String.length "/admin/api/builds/") path))
    as version eqn:Hversion.
  clear Hversion.
  destruct (PyStr.nonempty version); cbn [negb];
    [| left; eexists _, _; split; [reflexivity | auto]].
  unfold bind, gets. cbv beta iota.
  destruct (String.eqb version (read_active "" (w_fs w))) eqn:He;
    [left; eexists _, _; split; [reflexivity | auto] |].
  apply String.eqb_neq in He.
  destruct (path_probe_cases (PyPath.bin_name version) w)
    as [Hp | (Hp & _ & _)]; rewrite Hp; [| right; left; reflexivity].
  destruct (path_exists (PyPath.bin_name version) (w_fs w)) eqn:Hex;
    cbn [negb]; [| left; eexists _, _; split; [reflexivity | auto]].
  destruct (path_exists_inv _ _ Hex) as (d & x & Hd & Hx).
  right; right. exists version, d, x. repeat (split; [assumption |]).
  now rewrite (unlink_existing _ w d x Hd Hx).
Qed.

End DeletionFacts.

(** X11.  Whatever the path and the store, [do_DELETE] answers 200, 400,
    404 or 409, or it dies of the [OSError] of the existence check; unless
    the answer is 200 the world is exactly as before.  For a valid version
    whose file name has at most 255 bytes it answers; for one with a
    longer file name that the pointer does not name, in an existing
    store, it dies. *)
Theorem do_DELETE_answers_or_dies (path : string) (w : world) :
  ((exists code body w',
      do_DELETE path w = (Ok (code, body), w')
      /\ (code = 200 \/ code = 400 \/ code = 404 \/ code = 409)%Z
      /\ (code <> 200%Z -> w' = w))
   \/ do_DELETE path w = (Raise OSError, w))
  /\
  (forall v, path = delete_path v -> valid_version v ->
     (fits (PyPath.bin_name v) = true ->
      exists code body w', do_DELETE path w = (Ok (code, body), w'))
     /\
     (fits (PyPath.bin_name v) = false ->
      PyStr.free_of PyStr.is_nul (PyPath.bin_name v) = true ->
      builds_dir (w_fs w) <> None ->
      v <> read_active "" (w_fs w) ->
      do_DELETE path w = (Raise OSError, w))).
Proof.
  split.
  - destruct (do_DELETE_cases path w)
      as [(code & body & -> & Hc) | [-> | (version & d & x & _ & _ & _ & ->)]].
    + left. exists code, body, w. split; [reflexivity |].
      split; [tauto | auto].
    + now right.
    + left. eexists _, _, _. split; [reflexivity |].
      split; [auto | congruence].
  - intros v -> Hv. split.
    + intros Hf. rewrite (do_DELETE_checks v w Hv Hf).
      destruct (String.eqb v (read_active "" (w_fs w)));
        [eexists _, _, _; reflexivity |].
      destruct (path_exists (PyPath.bin_name v) (w_fs w)) eqn:Hex;
        [| eexists _, _, _; reflexivity].
      destruct (path_exists_inv _ _ Hex) as (d & x & Hd & Hx).
      unfold bind. rewrite (unlink_existing _ w d x Hd Hx).
      eexists _, _, _. reflexivity.
    + intros Hf Hn Hd Hne. apply (do_DELETE_too_long v w Hv Hne).
      now apply path_probe_long.
Qed.

Lemma do_DELETE_answers_or_dies_witness :
  (exists code body w',
     do_DELETE "/admin/api/builds/2024-01-01" Scenario.w_active
     = (Ok (code, body), w'))
  /\
  do_DELETE (delete_path Scenario.long_version) Scenario.w_active
  = (Raise OSError, Scenario.w_active).
Proof.
  split.
  - apply (do_DELETE_answers_or_dies "/admin/api/builds/2024-01-01"
             Scenario.w_active) with (v := "2024-01-01").
    + reflexivity.
    + split; [discriminate | reflexivity].
    + vm_compute. reflexivity.
  - apply (do_DELETE_answers_or_dies (delete_path Scenario.long_version)
             Scenario.w_active) with (v := Scenario.long_version).
    + reflexivity.
    + split; [discriminate | vm_compute; reflexivity].
    + vm_compute. reflexivity.
    + vm_compute. reflexivity.
    + discriminate.
    + vm_compute. discriminate.
Defined.

(** X12.  Whatever the path, [do_DELETE] removes at most one entry of the
    store and only one whose name ends in [.bin]: every other entry, the
    pointer file first of all, [FEATHER_BIN], the clock and the counters
    are untouched, and no entry is ever created or rewritten. *)
Theorem do_DELETE_only_unlinks_builds (path : string) (w : world) :
  let w' := snd (do_DELETE path w) in
  (forall name, PyStr.endswith ".bin" name = false ->
     lookup_entry name (w_fs w') = lookup_entry name (w_fs w))
  /\ active_pointer (w_fs w') = active_pointer (w_fs w)
  /\ feather_bin (w_fs w') = feather_bin (w_fs w)
  /\ (forall name x, lookup_entry name (w_fs w') = Some x ->
        lookup_entry name (w_fs w) = Some x)
  /\ (forall n1 n2, lookup_entry n1 (w_fs w') <> lookup_entry n1 (w_fs w) ->
        lookup_entry n2 (w_fs w') <> lookup_entry n2 (w_fs w) -> n1 = n2)
  /\ w_now w' = w_now w /\ w_probes w' = w_probes w
  /\ w_restarts w' = w_restarts w.
Proof.
  cbv zeta.
  destruct (do_DELETE_cases path w)
    as [(code & body & -> & _) | [-> | (version & d & x & Hd & Hx & _ & ->)]].
  - cbn [snd]. repeat split; try reflexivity; try tauto; congruence.
  - cbn [snd]. repeat split; try reflexivity; try tauto; congruence.
  - cbn [snd set_fs w_fs w_now w_probes w_restarts feather_bin].
    assert (Hother : forall name, name <> PyPath.bin_name version ->
              lookup_entry name
                (Fs (Some (delete (PyPath.bin_name version) d))
                    (feather_bin (w_fs w)))
              = lookup_entry name (w_fs w)).
    { intros name Hne. unfold lookup_entry. cbn [builds_dir]. rewrite Hd.
      destruct (is_filename name); [| reflexivity].
      now apply lookup_delete_ne. }
    split; [| split; [| split; [| split; [| split]]]].
    + intros name Hend. apply Hother. intros ->.
      pose proof (glob_bin_name version) as Hg. unfold PyPath.glob_bin in Hg.
      congruence.
    + unfold active_pointer. rewrite Hother; [reflexivity |].
      intros Heq. symmetry in Heq. now apply bin_name_not_active in Heq.
    + reflexivity.
    + intros name y. unfold lookup_entry. cbn [builds_dir]. rewrite Hd.
      destruct (is_filename name); [| discriminate].
      intros Hy. apply lookup_delete_Some in Hy. tauto.
    + intros n1 n2 H1 H2.
      destruct (decide (n1 = PyPath.bin_name version)) as [-> | Hn1];
        [| now rewrite Hother in H1].
      destruct (decide (n2 = PyPath.bin_name version)) as [-> | Hn2];
        [reflexivity | now rewrite Hother in H2].
    + repeat split.
Qed.

Lemma do_DELETE_only_unlinks_builds_witness :
  active_pointer
    (w_fs (snd (do_DELETE "/admin/api/builds/active" Scenario.w_active)))
  = active_pointer (w_fs Scenario.w_active).
Proof.
  apply (do_DELETE_only_unlinks_builds "/admin/api/builds/active"
           Scenario.w_active).
Defined.

(** X13.  Once a version has been deleted, promoting it fails with
    "not found" and changes nothing more: for a valid, existing version
    that the pointer does not name, the delete answers 200 and the
    promotion that follows returns [False]. *)
Theorem delete_then_promote_not_found (E : env) (v : string) (w : world) :
  valid_version v ->
  path_exists (PyPath.bin_name v) (w_fs w) = true ->
  v <> read_active "" (w_fs w) ->
  promote_version E v (snd (do_DELETE (delete_path v) w))
  = (Ok (false, "Build " ++ v ++ " not found"),
     snd (do_DELETE (delete_path v) w)).
Proof.
  intros Hv Hex Hne. pose proof (path_exists_filename _ _ Hex) as Hfn.
  apply promote_version_missing; [now apply is_filename_fits |].
  destruct (path_exists_inv _ _ Hex) as (d & x & Hd & Hx).
  rewrite (do_DELETE_checks v w Hv (is_filename_fits _ Hfn)), Hex.
  destruct (String.eqb v (read_active "" (w_fs w))) eqn:He;
    [apply String.eqb_eq in He; contradiction |].
  unfold bind. rewrite (unlink_existing _ w d x Hd Hx).
  unfold ret, path_exists, lookup_entry. cbn [snd set_fs w_fs builds_dir].
  rewrite Hfn. now rewrite lookup_delete_eq.
Qed.

Lemma delete_then_promote_not_found_witness :
  promote_version Scenario.E_down "2024-01-01"
    (snd (do_DELETE "/admin/api/builds/2024-01-01" Scenario.w_active))
  = (Ok (false, "Build 2024-01-01 not found"),
     snd (do_DELETE "/admin/api/builds/2024-01-01" Scenario.w_active)).
Proof.
  apply (delete_then_promote_not_found Scenario.E_down "2024-01-01"
           Scenario.w_active).
  - split; [discriminate | reflexivity].
  - vm_compute. reflexivity.
  - vm_compute. discriminate.
Defined.

(** ** The POST handler *)

Section Post.

Variable E : env.
Variable fmt : json -> string.

Lemma poll_health_messages (n : nat) (w : world) :
  exists msg w', poll_health E n w = (Ok (true, msg), w')
                 /\ (msg = "OK" \/ msg = degraded_message)
                 /\ w_fs w' = w_fs w.
Proof.
  revert w. induction n as [|n IH]; intros w.
  - exists degraded_message, w. split; [reflexivity | auto].
  - rewrite poll_health_step. cbv zeta. destruct (truthy _).
    + exists "OK", (after_probes 1 w). split; [reflexivity | auto].
    + destruct (IH (after_probes 1 w)) as (msg & w' & -> & Hm & Hfs).
      exists msg, w'. split; [reflexivity | auto].
Qed.

(** [promote_version] on a value that is not a [str], check by check. *)
Lemma promote_value_fits (j : json) (w : world) :
  (forall s, j <> JStr s) ->
  fits (PyPath.bin_name (fmt j)) = true ->
  promote_value E fmt j w
  = if negb (path_exists (PyPath.bin_name (fmt j)) (w_fs w))
    then (Sent (false, "Build " ++ fmt j ++ " not found"), w)
    else match (run copy2 (PyPath.bin_name (fmt j)) then chmod_bin 493) w
         with
         | (Ok _, w') => (Died TypeError, w')
         | (Raise e, w') => (Died (Workflow e), w')
         end.
Proof.
  intros Hns Hf.
  destruct j; try (exfalso; now apply (Hns s));
    cbn [promote_value]; now rewrite (path_probe_fits _ w Hf).
Qed.

Lemma promote_value_too_long (j : json) (w : world) :
  (forall s, j <> JStr s) ->
  path_probe (PyPath.bin_name (fmt j)) w = (Raise OSError, w) ->
  promote_value E fmt j w = (Died (Workflow OSError), w).
Proof.
  intros Hns Hp.
  destruct j; try (exfalso; now apply (Hns s));
    cbn [promote_value]; now rewrite Hp.
Qed.

(** On a value that is not a [str] the store and the pointer stay as they
    were. *)
Lemma promote_value_store (j : json) (w : world) :
  (forall s, j <> JStr s) ->
  builds_dir (w_fs (snd (promote_value E fmt j w))) = builds_dir (w_fs w).
Proof.
  intros Hns.
  destruct (path_probe_cases (PyPath.bin_name (fmt j)) w)
    as [Hp | (Hp & _ & _)].
  - assert (Hpv : promote_value E fmt j w
      = if negb (path_exists (PyPath.bin_name (fmt j)) (w_fs w))
        then (Sent (false, "Build " ++ fmt j ++ " not found"), w)
        else match (run copy2 (PyPath.bin_name (fmt j)) then chmod_bin 493) w
             with
             | (Ok _, w') => (Died TypeError, w')
             | (Raise e, w') => (Died (Workflow e), w')
             end).
    { destruct j; try (exfalso; now apply (Hns s));
        cbn [promote_value]; now rewrite Hp. }
    rewrite Hpv.
    destruct (path_exists (PyPath.bin_name (fmt j)) (w_fs w)) eqn:Hex;
      cbn [negb]; [| reflexivity].
    unfold path_exists in Hex.
    destruct (lookup_entry (PyPath.bin_name (fmt j)) (w_fs w)) as [src|] eqn:Hs;
      [| discriminate].
    unfold bind, copy2, chmod_bin. rewrite Hs. reflexivity.
  - now rewrite (promote_value_too_long j w Hns Hp).
Qed.

(** The promote endpoint on a body that is a JSON object. *)
Lemma do_POST_promote_object (req : request) (items : list (string * json))
    (w : world) :
  read_body req = Ok (JObj items) ->
  do_POST E fmt "/admin/api/promote" req w
  = let version := match assoc "version" items with
                   | Some j => j
                   | None => JStr ""
                   end in
    if negb (truthy version) then
      (Sent (400%Z, JObj [("error", JStr "version required")]), w)
    else
      match promote_value E fmt version w with
      | (Sent (ok, msg), w2) =>
          (Sent ((if ok then 200 else 404)%Z,
                 JObj [("ok", JBool ok); ("message", JStr msg)]), w2)
      | (Died e, w2) => (Died e, w2)
      end.
Proof.
  intros Hbody. unfold do_POST.
  change (String.eqb "/admin/api/promote" "/admin/api/promote") with true.
  cbv iota. rewrite Hbody. reflexivity.
Qed.

End Post.

(** X14.  [POST /promote] without a usable version is refused with 400
    before anything is touched: no body at all (Content-Length 0 or
    absent), an object without ["version"], or a ["version"] that is
    falsy ([""], [0], [false], [null], an empty list or object). *)
Theorem post_promote_requires_version (E : env) (fmt : json -> string)
    (req : request) (items : list (string * json)) (w : world) :
  read_body req = Ok (JObj items) ->
  (assoc "version" items = None \/
   exists j, assoc "version" items = Some j /\ truthy j = false) ->
  do_POST E fmt "/admin/api/promote" req w
  = (Sent (400%Z, JObj [("error", JStr "version required")]), w).
Proof.
  intros Hbody Hv. rewrite (do_POST_promote_object E fmt req items w Hbody).
  cbv zeta. destruct Hv as [-> | (j & -> & Hj)].
  - reflexivity.
  - now rewrite Hj.
Qed.

Lemma post_promote_requires_version_witness :
  do_POST Scenario.E_down Cases.str_scalar "/admin/api/promote"
          (Request 0 NotJson) Scenario.w_active
  = (Sent (400%Z, JObj [("error", JStr "version required")]),
     Scenario.w_active)
  /\
  do_POST Scenario.E_down Cases.str_scalar "/admin/api/promote"
          (promote_request (JNum 0)) Scenario.w_active
  = (Sent (400%Z, JObj [("error", JStr "version required")]),
     Scenario.w_active).
Proof.
  split.
  - apply (post_promote_requires_version Scenario.E_down Cases.str_scalar
             (Request 0 NotJson) [] Scenario.w_active);
      [reflexivity | left; reflexivity].
  - apply (post_promote_requires_version Scenario.E_down Cases.str_scalar
             (promote_request (JNum 0)) [("version", JNum 0)]
             Scenario.w_active);
      [reflexivity | right; exists (JNum 0); split; reflexivity].
Defined.

(** X15.  [POST /promote] with a string version that is non-empty and has
    no path separator.  When the build is missing and the file name has
    at most 255 bytes: 404 with "Build v not found" and an untouched
    world.  When the file name is longer, in an existing store: the
    handler dies of the [OSError] of the existence check, the world
    untouched.  When the build exists and the restart command returns:
    200 with [ok] true and the message "OK" or the degraded one.  When the
    restart command times out: the handler dies of [TimeoutExpired]
    without an answer, the pointer file already holding [v]. *)
Theorem post_promote_string (E : env) (fmt : json -> string) (req : request)
    (items : list (string * json)) (v : string) (w : world) :
  read_body req = Ok (JObj items) ->
  assoc "version" items = Some (JStr v) ->
  valid_version v ->
  (fits (PyPath.bin_name v) = true ->
   path_exists (PyPath.bin_name v) (w_fs w) = false ->
   do_POST E fmt "/admin/api/promote" req w
   = (Sent (404%Z, JObj [("ok", JBool false);
                         ("message", JStr ("Build " ++ v ++ " not found"))]),
      w))
  /\
  (fits (PyPath.bin_name v) = false ->
   PyStr.free_of PyStr.is_nul (PyPath.bin_name v) = true ->
   builds_dir (w_fs w) <> None ->
   do_POST E fmt "/admin/api/promote" req w = (Died (Workflow OSError), w))
  /\
  (path_exists (PyPath.bin_name v) (w_fs w) = true ->
   (exists rc, supervisor E (w_restarts w) = Exited rc) ->
   exists msg w',
     do_POST E fmt "/admin/api/promote" req w
     = (Sent (200%Z, JObj [("ok", JBool true); ("message", JStr msg)]), w')
     /\ (msg = "OK" \/ msg = degraded_message)
     /\ active_pointer (w_fs w') = Some v)
  /\
  (path_exists (PyPath.bin_name v) (w_fs w) = true ->
   supervisor E (w_restarts w) = RunTimedOut ->
   exists w',
     do_POST E fmt "/admin/api/promote" req w
     = (Died (Workflow TimeoutExpired), w')
     /\ active_pointer (w_fs w') = Some v).
Proof.
  intros Hbody Hver [Hne _].
  rewrite (do_POST_promote_object E fmt req items w Hbody), Hver. cbv zeta.
  replace (truthy (JStr v)) with true by (now destruct v).
  cbn [negb promote_value]. unfold lift.
  split; [| split; [| split]].
  - intros Hf Hmiss. now rewrite promote_version_missing.
  - intros Hf Hn Hd.
    now rewrite (promote_version_too_long E v w (path_probe_long _ w Hf Hn Hd)).
  - intros Hex [rc Hrc]. pose proof (path_exists_filename _ _ Hex) as Hfn.
    destruct (path_exists_inv _ _ Hex) as (d & src & Hd & Hs).
    rewrite (promote_version_found E v w d src Hd Hfn Hs).
    unfold bind, restart_feather.
    replace (w_restarts (committed v src d w)) with (w_restarts w)
      by reflexivity.
    rewrite Hrc.
    match goal with |- context [poll_health E HEALTH_BOUND ?w0] =>
      destruct (poll_health_messages E HEALTH_BOUND w0)
        as (msg & w' & -> & Hm & Hfs)
    end.
    exists msg, w'. split; [reflexivity |]. split; [exact Hm |].
    rewrite Hfs. apply committed_pointer.
  - intros Hex Hrc. pose proof (path_exists_filename _ _ Hex) as Hfn.
    destruct (path_exists_inv _ _ Hex) as (d & src & Hd & Hs).
    rewrite (promote_version_found E v w d src Hd Hfn Hs).
    unfold bind, restart_feather.
    replace (w_restarts (committed v src d w)) with (w_restarts w)
      by reflexivity.
    rewrite Hrc. eexists. split; [reflexivity |]. apply committed_pointer.
Qed.

Lemma post_promote_string_witness :
  do_POST Scenario.E_down Cases.str_scalar "/admin/api/promote"
          (promote_request (JStr "2023-12-01")) Scenario.w_active
  = (Sent (404%Z, JObj [("ok", JBool false);
                        ("message", JStr "Build 2023-12-01 not found")]),
     Scenario.w_active)
  /\
  exists w',
    do_POST Scenario.E_hang Cases.str_scalar "/admin/api/promote"
            (promote_request (JStr "2024-01-01")) Scenario.w_active
    = (Died (Workflow TimeoutExpired), w')
    /\ active_pointer (w_fs w') = Some "2024-01-01".
Proof.
  split.
  - apply (post_promote_string Scenario.E_down Cases.str_scalar
             (promote_request (JStr "2023-12-01"))
             [("version", JStr "2023-12-01")] "2023-12-01"
             Scenario.w_active);
      [reflexivity | reflexivity | split; [discriminate | reflexivity]
      | vm_compute; reflexivity | vm_compute; reflexivity].
  - apply (post_promote_string Scenario.E_hang Cases.str_scalar
             (promote_request (JStr "2024-01-01"))
             [("version", JStr "2024-01-01")] "2024-01-01"
             Scenario.w_active);
      [reflexivity | reflexivity | split; [discriminate | reflexivity]
      | vm_compute; reflexivity | reflexivity].
Defined.



(** X17.  [POST /promote] with a truthy version that is not a string (a
    number, [true], a list, an object) and whose text has no path
    separator.  When no file is named after its text and that file name
    has at most 255 bytes the answer is 404; when the file name is
    longer, in an existing store, the handler dies of the [OSError] of
    the existence check, the world untouched; when such a file exists the
    handler copies it onto [FEATHER_BIN] with mode 0o755 and then dies of
    [TypeError] in [write_text], leaving the pointer file and the store as
    they were and asking for no restart. *)
Theorem post_promote_non_string (E : env) (fmt : json -> string)
    (req : request) (items : list (string * json)) (j : json) (w : world) :
  read_body req = Ok (JObj items) ->
  assoc "version" items = Some j ->
  truthy j = true ->
  (forall s, j <> JStr s) ->
  PyStr.free_of PyStr.is_slash (fmt j) = true ->
  (fits (PyPath.bin_name (fmt j)) = true ->
   path_exists (PyPath.bin_name (fmt j)) (w_fs w) = false ->
   do_POST E fmt "/admin/api/promote" req w
   = (Sent (404%Z, JObj [("ok", JBool false);
                         ("message",
                          JStr ("Build " ++ fmt j ++ " not found"))]), w))
  /\
  (fits (PyPath.bin_name (fmt j)) = false ->
   PyStr.free_of PyStr.is_nul (PyPath.bin_name (fmt j)) = true ->
   builds_dir (w_fs w) <> None ->
   do_POST E fmt "/admin/api/promote" req w = (Died (Workflow OSError), w))
  /\
  (forall src,
     lookup_entry (PyPath.bin_name (fmt j)) (w_fs w) = Some src ->
     do_POST E fmt "/admin/api/promote" req w
     = (Died TypeError,
        set_fs (Fs (builds_dir (w_fs w))
                   (Some (File (f_data src) (f_mtime src) 493))) w)).
Proof.
  intros Hbody Hver Ht Hns _.
  rewrite (do_POST_promote_object E fmt req items w Hbody), Hver. cbv zeta.
  rewrite Ht. cbn [negb].
  split; [| split].
  - intros Hf Hmiss. rewrite (promote_value_fits E fmt j w Hns Hf), Hmiss.
    reflexivity.
  - intros Hf Hn Hd.
    now rewrite (promote_value_too_long E fmt j w Hns
                   (path_probe_long _ w Hf Hn Hd)).
  - intros src Hsrc.
    destruct (lookup_entry_inv _ _ _ Hsrc) as (d & _ & Hfn & _).
    rewrite (promote_value_fits E fmt j w Hns (is_filename_fits _ Hfn)).
    unfold path_exists. rewrite Hsrc. cbn [negb].
    unfold bind, copy2, chmod_bin. rewrite Hsrc. reflexivity.
Qed.

Lemma post_promote_non_string_witness :
  do_POST Scenario.E_down Cases.str_scalar "/admin/api/promote"
          (promote_request (JNum 20240201)) Cases.w_numbered
  = (Died TypeError,
     set_fs (Fs (builds_dir Cases.fs_numbered)
                (Some (File "ELF2" 1706745600 493))) Cases.w_numbered)
  /\ active_pointer Cases.fs_numbered = Some "2024-01-01".
Proof.
  split; [| vm_compute; reflexivity].
  destruct (post_promote_non_string Scenario.E_down Cases.str_scalar
              (promote_request (JNum 20240201)) [("version", JNum 20240201)]
              (JNum 20240201) Cases.w_numbered) as (_ & _ & Hstaged);
    [reflexivity | reflexivity | reflexivity | discriminate
    | vm_compute; reflexivity |].
  apply (Hstaged (File "ELF2" 1706745600 420)).
  vm_compute. reflexivity.
Defined.

(** X18.  [POST /restart] ignores the body and never touches a file.
    When the restart command returns, whatever its return code, the
    handler sleeps two seconds, sends one health request and answers 200
    with [ok] true and [healthy] telling whether that one probe brought
    a value; when the command times out the handler dies of
    [TimeoutExpired] without sleeping or probing. *)
Theorem post_restart (E : env) (fmt : json -> string) (req : request)
    (w : world) :
  (forall rc, supervisor E (w_restarts w) = Exited rc ->
   do_POST E fmt "/admin/api/restart" req w
   = (Sent (200%Z,
            JObj [("ok", JBool true);
                  ("healthy",
                   JBool (is_not_None
                            (health_of (health_endpoint E (w_probes w)))))]),
      World (w_fs w) (w_now w + 2) (S (w_probes w)) (S (w_restarts w))))
  /\
  (supervisor E (w_restarts w) = RunTimedOut ->
   do_POST E fmt "/admin/api/restart" req w
   = (Died (Workflow TimeoutExpired),
      World (w_fs w) (w_now w) (w_probes w) (S (w_restarts w)))).
Proof.
  unfold do_POST.
  change (String.eqb "/admin/api/restart" "/admin/api/promote") with false.
  change (String.eqb "/admin/api/restart" "/admin/api/restart") with true.
  cbv iota. unfold lift. split.
  - intros rc Hrc. unfold bind at 1. unfold restart_feather. rewrite Hrc.
    unfold bind at 1. unfold sleep, modify.
    unfold bind at 1. rewrite get_health_eq. reflexivity.
  - intros Hrc. unfold bind at 1. unfold restart_feather. rewrite Hrc.
    reflexivity.
Qed.

Lemma post_restart_witness :
  do_POST Cases.E_up Cases.str_scalar "/admin/api/restart"
          (Request 0 NotJson) Scenario.w_active
  = (Sent (200%Z, JObj [("ok", JBool true); ("healthy", JBool true)]),
     World Scenario.fs_active 1706800002 1 1).
Proof.
  apply (post_restart Cases.E_up Cases.str_scalar (Request 0 NotJson)
           Scenario.w_active) with (rc := 0%Z).
  reflexivity.
Defined.

(** ** The pointer over a run of requests *)

Section PointerSafety.

Variable E : env.
Variable fmt : json -> string.

Lemma pointer_ok_store (f f' : fs) :
  builds_dir f' = builds_dir f -> pointer_ok f -> pointer_ok f'.
Proof.
  intros Hd Hok text. unfold active_pointer, path_exists, lookup_entry.
  rewrite Hd. apply Hok.
Qed.

Lemma pointer_ok_promote (v : string) (w : world) :
  PyStr.strip v = v ->
  path_exists (PyPath.bin_name v) (w_fs w) = true ->
  pointer_ok (w_fs (snd (promote_version E v w))).
Proof.
  intros Hstrip Hex text Hptr. pose proof (path_exists_filename _ _ Hex) as Hf.
  destruct (path_exists_inv _ _ Hex) as (d & src & Hd & Hs).
  rewrite promote_version_keeps_build.
  destruct (promote_version_world E v w d src Hd Hf Hs) as (k & _ & Hw).
  rewrite Hw in Hptr. cbn [w_fs] in Hptr.
  rewrite committed_pointer in Hptr. injection Hptr as <-.
  now rewrite Hstrip.
Qed.

Lemma pointer_ok_delete (path : string) (w : world) :
  pointer_ok (w_fs w) -> pointer_ok (w_fs (snd (do_DELETE path w))).
Proof.
  intros Hok.
  destruct (do_DELETE_cases path w)
    as [(code & body & -> & _)
       | [-> | (version & d & x & Hd & Hx & Hne & ->)]];
    [exact Hok | exact Hok |].
  cbn [snd set_fs w_fs]. intros text Hptr.
  assert (Hptr0 : active_pointer (w_fs w) = Some text).
  { revert Hptr. unfold active_pointer, lookup_entry. cbn [builds_dir].
    rewrite Hd, is_filename_active, lookup_delete_ne; [tauto |].
    apply bin_name_not_active. }
  pose proof (Hok text Hptr0) as Hex.
  assert (Hread : read_active "" (w_fs w) = PyStr.strip text)
    by (now rewrite read_active_pointer, Hptr0).
  revert Hex. unfold path_exists, lookup_entry. cbn [builds_dir].
  rewrite Hd. destruct (is_filename _); [| tauto].
  rewrite lookup_delete_ne; [tauto |].
  intros Heq. apply bin_name_inj in Heq. congruence.
Qed.

(** A POST either leaves the store as it was or is the promotion of the
    string version it carries. *)
Lemma do_POST_store (path : string) (req : request) (w : world) :
  builds_dir (w_fs (snd (do_POST E fmt path req w))) = builds_dir (w_fs w)
  \/ exists v, posted_version (Post path req) = Some v
               /\ path_exists (PyPath.bin_name v) (w_fs w) = true
               /\ snd (do_POST E fmt path req w)
                  = snd (promote_version E v w).
Proof.
  unfold do_POST, posted_version.
  destruct (String.eqb path "/admin/api/promote").
  - destruct (read_body req) as [body|e]; [| now left].
    destruct body as [| | | |items|items]; try (now left).
    cbn [dict_get]. unfold ret.
    destruct (assoc "version" items) as [j|]; [| now left].
    destruct (truthy j) eqn:Ht; cbn [negb]; [| now left].
    assert (Hother : (forall s, j <> JStr s) ->
              builds_dir
                (w_fs (snd (match promote_value E fmt j w with
                            | (Sent (ok, msg), w2) =>
                                (Sent ((if ok then 200 else 404)%Z,
                                       JObj [("ok", JBool ok);
                                             ("message", JStr msg)]), w2)
                            | (Died e, w2) => (Died e, w2)
                            end)))
              = builds_dir (w_fs w)).
    { intros Hns. rewrite <- (promote_value_store E fmt j w Hns).
      now destruct (promote_value E fmt j w) as [[[ok msg]|e] w2]. }
    destruct j as [| | |s| |]; try (left; apply Hother; discriminate).
    cbn [promote_value].
    destruct (path_exists (PyPath.bin_name s) (w_fs w)) eqn:Hex.
    + right. exists s. split; [reflexivity |]. split; [exact Hex |].
      unfold lift. destruct (promote_version E s w) as [[[ok msg]|e] w'];
        reflexivity.
    + left. unfold lift.
      pose proof (promote_version_absent E s w Hex) as Hw.
      destruct (promote_version E s w) as [[[ok msg]|e] w'];
        cbn [snd] in *; now rewrite Hw.
  - destruct (String.eqb path "/admin/api/restart"); [| now left].
    left. unfold lift, bind, restart_feather.
    destruct (supervisor E (w_restarts w)); [| reflexivity].
    unfold sleep, modify. rewrite get_health_eq. reflexivity.
Qed.

Lemma pointer_ok_serve (r : http_request) (w : world) :
  plain_request r ->
  pointer_ok (w_fs w) -> pointer_ok (w_fs (serve E fmt r w)).
Proof.
  intros [Hclean _] Hok. destruct r as [path | path req | path]; cbn [serve].
  - apply (pointer_ok_store (w_fs w)); [| exact Hok].
    assert (Hfs : w_fs (snd (do_GET E path w)) = w_fs w).
    { unfold do_GET.
      destruct (String.eqb path "/admin/api/builds"); [reflexivity |].
      destruct (String.eqb path "/admin/api/status") eqn:Hs;
        [| reflexivity].
      unfold bind at 1. rewrite get_health_eq.
      unfold bind, gets, ret.
      destruct (truthy (health_of (health_endpoint E (w_probes w))));
        [| reflexivity].
      destruct (health_of (health_endpoint E (w_probes w))); reflexivity. }
    now rewrite Hfs.
  - destruct (do_POST_store path req w) as [Hd | (v & Hv & Hex & ->)].
    + now apply (pointer_ok_store (w_fs w)).
    + apply pointer_ok_promote; [now apply (Hclean v Hv) | exact Hex].
  - now apply pointer_ok_delete.
Qed.

End PointerSafety.

(** X19.  The active build is never pulled from under the pointer: start
    from a store in which the pointer, as read, names an existing build
    (or is not set), and serve any sequence of GET, POST and DELETE
    requests, with any behaviour of the supervisor and the health
    endpoint and also when handlers die.  Provided the versions are
    plain names (each string version sent to [/promote] has no
    surrounding whitespace, no path separator and no carriage return, and
    each version of a DELETE path has no path separator inside), the
    pointer names an existing build after every one of them. *)
Theorem pointer_stays_valid (E : env) (fmt : json -> string)
    (rs : list http_request) (w : world) :
  pointer_ok (w_fs w) ->
  Forall plain_request rs ->
  pointer_ok (w_fs (serve_all E fmt rs w)).
Proof.
  intros Hok Hclean. revert w Hok.
  induction Hclean as [|r rs Hr _ IH]; intros w Hok; [exact Hok |].
  unfold serve_all. cbn [fold_left]. apply IH.
  now apply pointer_ok_serve.
Qed.

Lemma pointer_stays_valid_witness :
  pointer_ok
    (w_fs (serve_all Scenario.E_hang Cases.str_scalar
             [Post "/admin/api/promote" (promote_request (JStr "2024-01-01"));
              Delete "/admin/api/builds/2024-02-01";
              Get "/admin/api/status";
              Delete "/admin/api/builds/2024-01-01";
              Post "/admin/api/promote" (promote_request (JNum 7))]
             Scenario.w_active)).
Proof.
  apply (pointer_stays_valid Scenario.E_hang Cases.str_scalar).
  - intros text Hptr. vm_compute in Hptr. injection Hptr as <-.
    vm_compute. reflexivity.
  - repeat (apply List.Forall_cons;
            [split; intros v Hv; vm_compute in Hv;
             first [discriminate Hv
                   | injection Hv as <-; repeat split; vm_compute; reflexivity]
            |]).
    apply List.Forall_nil.
Defined.

(* ===================================================================== *)
(** * Properties of the waitlist server *)
(* ===================================================================== *)

Section WaitlistFacts.

Variable unquote_plus : string -> string.

Lemma split_nonempty (sep : ascii) (s : string) : Waitlist.split sep s <> [].
Proof.
  destruct s as [|c s]; simpl; [discriminate |].
  destruct (Ascii.eqb c sep); [discriminate |].
  now destruct (Waitlist.split sep s).
Qed.

Lemma split_free (sep : ascii) (s : string) :
  PyStr.free_of (fun c => Ascii.eqb c sep) s = true ->
  Waitlist.split sep s = [s].
Proof.
  induction s as [|a s IH]; [reflexivity |].
  simpl. intros Hfree. apply andb_prop in Hfree as [Ha Hs].
  apply negb_true_iff in Ha. now rewrite Ha, (IH Hs).
Qed.

(** A last field without separator is the last element of the split. *)
Lemma split_last (sep : ascii) (s last : string) :
  PyStr.free_of (fun c => Ascii.eqb c sep) last = true ->
  Waitlist.split sep (s ++ String sep last)
  = (Waitlist.split sep s ++ [last])%list.
Proof.
  intros Hfree. induction s as [|c s IH].
  - rewrite app_nil_l. simpl. rewrite Ascii.eqb_refl. f_equal.
    now apply split_free.
  - rewrite app_cons. simpl. rewrite IH.
    destruct (Ascii.eqb c sep); [reflexivity |].
    pose proof (split_nonempty sep s) as Hne.
    now destruct (Waitlist.split sep s).
Qed.

Lemma scan_no_email (pairs : list string) (email : string) :
  (forall pair, In pair pairs ->
     (Waitlist.partition "="%char pair).1.1 <> "email") ->
  fold_left (Waitlist.scan_pair unquote_plus) pairs email = email.
Proof.
  revert email. induction pairs as [|p pairs IH]; intros email Hno;
    [reflexivity |].
  simpl. rewrite IH by (intros q Hq; apply Hno; now right).
  unfold Waitlist.scan_pair.
  specialize (Hno p (or_introl eq_refl)).
  destruct (Waitlist.partition "="%char p) as [[k m] v]. simpl in Hno.
  apply String.eqb_neq in Hno. now rewrite Hno.
Qed.

End WaitlistFacts.

(** X20.  A signup body in which no pair has the key [email] (an empty
    body, another field, a differently spelled key) stores nothing: the
    waitlist file is not written, not even created, and the answer is
    still 200 with [ok] true. *)
Theorem waitlist_ignores_other_fields (unquote_plus : string -> string)
    (stamp body : string) (waitlist : option string) :
  (forall pair, In pair (Waitlist.split "&"%char body) ->
     (Waitlist.partition "="%char pair).1.1 <> "email") ->
  Waitlist.do_POST unquote_plus stamp body waitlist
  = ((200%Z, JObj [("ok", JBool true)]), waitlist).
Proof.
  intros Hno. unfold Waitlist.do_POST.
  now rewrite (scan_no_email unquote_plus _ "" Hno).
Qed.

Lemma waitlist_ignores_other_fields_witness :
  Waitlist.do_POST (fun s => s) "2024-02-01T10:00:00"
                   "Email=a@b.c&name=email" None
  = ((200%Z, JObj [("ok", JBool true)]), None).
Proof.
  apply (waitlist_ignores_other_fields (fun s => s)).
  intros pair Hin. vm_compute in Hin.
  destruct Hin as [<- | [<- | []]]; vm_compute; discriminate.
Defined.

(** X21.  The last [email] pair decides: when the body is [email=v] or
    ends in [&email=v], with no [&] in [v], the address is [v] unquoted
    and stripped, whatever came before.  A non-empty address appends the
    line [stamp TAB address NEWLINE] to the file, keeping what was there;
    an address that is empty after stripping stores nothing, also when an
    earlier pair carried an address. *)
Theorem waitlist_last_email_wins (unquote_plus : string -> string)
    (stamp body v : string) (waitlist : option string) :
  PyStr.free_of (fun c => Ascii.eqb c "&"%char) v = true ->
  (body = "email=" ++ v \/ exists rest, body = rest ++ "&email=" ++ v) ->
  Waitlist.do_POST unquote_plus stamp body waitlist
  = ((200%Z, JObj [("ok", JBool true)]),
     if PyStr.nonempty (PyStr.strip (unquote_plus v))
     then Some (match waitlist with Some text => text | None => "" end
                ++ Waitlist.entry stamp (PyStr.strip (unquote_plus v)))
     else waitlist).
Proof.
  intros Hfree Hbody. unfold Waitlist.do_POST.
  assert (Hpair : PyStr.free_of (fun c => Ascii.eqb c "&"%char)
                    ("email=" ++ v) = true).
  { change ("email=" ++ v)
      with (String "e" (String "m" (String "a" (String "i"
             (String "l" (String "=" v)))))).
    cbn [PyStr.free_of]. rewrite Hfree. reflexivity. }
  assert (Hscan : forall email,
            Waitlist.scan_pair unquote_plus email ("email=" ++ v)
            = PyStr.strip (unquote_plus v)).
  { intros email. unfold Waitlist.scan_pair.
    change (Waitlist.partition "=" ("email=" ++ v)) with ("email", "=", v).
    cbv iota beta. now rewrite String.eqb_refl. }
  destruct Hbody as [-> | [rest ->]].
  - rewrite split_free by exact Hpair. cbn [fold_left].
    now rewrite Hscan.
  - change ("&email=" ++ v) with (String "&" ("email=" ++ v)).
    rewrite split_last by exact Hpair.
    rewrite fold_left_app. cbn [fold_left]. now rewrite Hscan.
Qed.

Lemma waitlist_last_email_wins_witness :
  Waitlist.do_POST (fun s => s) "2024-02-01T10:00:00"
                   "email=first@x.org&email= ann@x.org " (Some "old")
  = ((200%Z, JObj [("ok", JBool true)]),
     Some ("old" ++ Waitlist.entry "2024-02-01T10:00:00" "ann@x.org"))
  /\
  Waitlist.do_POST (fun s => s) "2024-02-01T10:00:00"
                   "email=first@x.org&email=" (Some "old")
  = ((200%Z, JObj [("ok", JBool true)]), Some "old").
Proof.
  split.
  - apply (waitlist_last_email_wins (fun s => s) "2024-02-01T10:00:00"
             "email=first@x.org&email= ann@x.org " " ann@x.org "
             (Some "old")).
    + reflexivity.
    + right. exists "email=first@x.org". reflexivity.
  - apply (waitlist_last_email_wins (fun s => s) "2024-02-01T10:00:00"
             "email=first@x.org&email=" "" (Some "old")).
    + reflexivity.
    + right. exists "email=first@x.org". reflexivity.
Defined.

Example split_like_python :
  Waitlist.split "&" "a&b&" = ["a"; "b"; ""]
  /\ Waitlist.split "&" "" = [""]
  /\ Waitlist.partition "=" "k=v=w" = ("k", "=", "v=w")
  /\ Waitlist.partition "=" "kv" = ("kv", "", "").
Proof. repeat split. Qed.
